(** * Default-privilege reconciler of provider-sql (PostgreSQL)

    A shallow embedding of
      - apis/postgresql/v1alpha1/default_privleages_types.go
      - pkg/controller/postgresql/defaultprivileges/reconciler.go
    and the properties of the Observe / Create / Update / Delete verbs.

    Go values are modelled as follows.
      - [string] is a byte string ([String.string]);
      - a pointer field [*string] is an [option string] ([None] is nil), and
        dereferencing nil panics;
      - a slice that may be nil is an [option (list _)];
      - the [error] interface is [option error] ([None] is nil);
      - a function returning [(T, error)] returns a pair;
      - the object behind the [resource.Managed] pointer and the calls made
        on the two database handles live in a store that every verb threads
        (monad [M]); a panic ends the computation and keeps the store. *)

From Stdlib Require Import String Ascii List ZArith Bool Lia.
Import ListNotations.
Open Scope string_scope.

Set Implicit Arguments.

(* ------------------------------------------------------------------ *)
(** ** Go built-ins and the libraries the reconciler calls             *)
(* ------------------------------------------------------------------ *)

(** Values of Go's [error] interface that occur here.  [Fundamental] is what
    [errors.New] builds, [WithMessage] what [errors.Wrap] builds around a
    non-nil cause, [WrapError] what [fmt.Errorf] builds for a [%w] verb. *)
Inductive error : Type :=
| Fundamental (msg : string)
| WithMessage (cause : error) (msg : string)
| WrapError (msg : string) (err : error).

(** [err.Error()]. *)
Fixpoint Error (e : error) : string :=
  match e with
  | Fundamental msg => msg
  | WithMessage cause msg => msg ++ ": " ++ Error cause
  | WrapError msg _ => msg
  end.

Module errors.
(** github.com/pkg/errors: [New] and [Wrap]; [Wrap] of nil is nil. *)
Definition New (msg : string) : error := Fundamental msg.

Definition Wrap (err : option error) (msg : string) : option error :=
  match err with
  | None => None
  | Some e => Some (WithMessage e msg)
  end.
End errors.

Module fmt.
(** [fmt.Errorf(prefix + "%s: %w", name, err)], the only shape used. *)
Definition Errorf (prefix name : string) (err : error) : error :=
  WrapError (prefix ++ name ++ ": " ++ Error err) err.
End fmt.

Definition dquote : ascii := "034"%char.
Definition NUL : ascii := "000"%char.
Definition tab : string := String "009"%char EmptyString.
Definition nl : string := String "010"%char EmptyString.

Module strings.
(** [strings.Join(elems, sep)]. *)
Definition Join (elems : list string) (sep : string) : string :=
  String.concat sep elems.
End strings.

Module pq.
(** github.com/lib/pq, [QuoteIdentifier]: the name is cut at its first NUL
    byte, every double quote in it is doubled, and the result is put
    between double quotes. *)
Fixpoint untilNUL (name : string) : string :=
  match name with
  | EmptyString => EmptyString
  | String ch rest =>
      if Ascii.eqb ch NUL then EmptyString else String ch (untilNUL rest)
  end.

Fixpoint doubleQuotes (name : string) : string :=
  match name with
  | EmptyString => EmptyString
  | String ch rest =>
      if Ascii.eqb ch dquote
      then String dquote (String dquote (doubleQuotes rest))
      else String ch (doubleQuotes rest)
  end.

Definition QuoteIdentifier (name : string) : string :=
  String dquote (doubleQuotes (untilNUL name) ++ String dquote EmptyString).
End pq.

Module xsql.
(** Modelled from the spec: package pkg/clients/xsql ([Query] and the [DB]
    interface) is used by the reconciler and is not among the sources; a
    query object is a parameterized string and positional parameters.
    A positional argument ([interface{}]): the reconciler passes role and
    database names and role identities. *)
Inductive Arg : Type :=
| StringParam (s : string)
| IntParam (n : Z).

(** [xsql.Query]. *)
Record Query : Type := mkQuery {
  String : string;
  Parameters : list Arg
}.
End xsql.

(** [context.Context]: the background context, or one derived from a parent
    by [WithCancel] / [WithDeadline] (told apart by [key]). *)
Inductive Context : Type :=
| Background
| Derived (parent : Context) (key : nat).

Module xpv1.
(** crossplane-runtime [Condition], without its transition time (which
    [Equal] ignores). *)
Record Condition : Type := mkCondition {
  Type_ : string;
  Status_ : string;
  Reason : string;
  Message : string
}.

Definition TypeReady : string := "Ready".
Definition TypeSynced : string := "Synced".

Definition Available : Condition := mkCondition TypeReady "True" "Available" "".
Definition Creating : Condition := mkCondition TypeReady "False" "Creating" "".
Definition Deleting : Condition := mkCondition TypeReady "False" "Deleting" "".

Definition Equal (c other : Condition) : bool :=
  String.eqb (Type_ c) (Type_ other) && String.eqb (Status_ c) (Status_ other)
  && String.eqb (Reason c) (Reason other) && String.eqb (Message c) (Message other).

(** One round of [ConditionedStatus.SetConditions]: every condition of the
    new condition's type is replaced (kept when already equal); the flag
    tells whether one was found. *)
Fixpoint replace (new : Condition) (cs : list Condition) : list Condition * bool :=
  match cs with
  | [] => ([], false)
  | existing :: rest =>
      let '(rest', found) := replace new rest in
      if negb (String.eqb (Type_ existing) (Type_ new)) then (existing :: rest', found)
      else if Equal existing new then (existing :: rest', true)
      else (new :: rest', true)
  end.

Definition SetConditions (cs : list Condition) (new : Condition) : list Condition :=
  let '(cs', found) := replace new cs in
  if found then cs' else (cs' ++ [new])%list.

(** [GetCondition]: the first condition of the type, if any. *)
Definition GetCondition (cs : list Condition) (ct : string) : option Condition :=
  find (fun c => String.eqb (Type_ c) ct) cs.
End xpv1.

Module managed.
(** The results of the verbs ([ConnectionDetails] is never filled in). *)
Record ExternalObservation : Type := mkObservation {
  ResourceExists : bool;
  ResourceUpToDate : bool;
  ResourceLateInitialized : bool
}.

Definition noObservation : ExternalObservation := mkObservation false false false.

Record ExternalCreation : Type := mkCreation {
  CreationConnectionDetails : list (string * string)
}.

Record ExternalUpdate : Type := mkUpdate {
  UpdateConnectionDetails : list (string * string)
}.
End managed.

(* ------------------------------------------------------------------ *)
(** ** apis/postgresql/v1alpha1: the declared object                   *)
(* ------------------------------------------------------------------ *)

Module v1alpha1.
(** [DefaultPrivilegePrivileges] is a slice of strings; [None] is the nil
    slice. *)
Definition DefaultPrivilegePrivileges : Type := option (list string).

(** [ToStringSlice].  The receiver is the address of a field, never nil. *)
Definition ToStringSlice (gp : DefaultPrivilegePrivileges) : list string :=
  match gp with
  | None => []
  | Some l => map (fun v => v) l
  end.

(** [DefaultPrivilegeParameters].  The reference and selector fields are
    read by [ResolveReferences] only and are left out. *)
Record DefaultPrivilegeParameters : Type := mkParameters {
  Privileges : DefaultPrivilegePrivileges;
  Role : option string;
  Owner : option string;
  Schema : option string;
  Database : option string
}.

Record DefaultPrivilegeSpec : Type := mkSpec {
  ForProvider : DefaultPrivilegeParameters
}.

Record DefaultPrivilegeStatus : Type := mkStatus {
  Conditions : list xpv1.Condition
}.

Record DefaultPrivilege : Type := mkDefaultPrivilege {
  Spec : DefaultPrivilegeSpec;
  Status : DefaultPrivilegeStatus
}.

(** [SetConditions] of a [DefaultPrivilege] (pointer receiver). *)
Definition SetConditions (mg : DefaultPrivilege) (c : xpv1.Condition) : DefaultPrivilege :=
  mkDefaultPrivilege (Spec mg)
    (mkStatus (xpv1.SetConditions (Conditions (Status mg)) c)).
End v1alpha1.

(** What a [resource.Managed] value points to: nothing (the nil interface),
    a [v1alpha1.DefaultPrivilege] (through a non-nil pointer), or a managed
    resource of another kind. *)
Inductive Managed : Type :=
| NilManaged
| IsDefaultPrivilege (cr : v1alpha1.DefaultPrivilege)
| OtherKind (kind : string).

(* ------------------------------------------------------------------ *)
(** ** The store, the database handles and the monad of the verbs      *)
(* ------------------------------------------------------------------ *)

(** The two handles of [external], by field. *)
Inductive Handle : Type :=
| OnDb
| OnDbDatabase.

(** A call made on a handle, with the context and the query it was given. *)
Inductive Call : Type :=
| ScanCall (on : Handle) (ctx : Context) (q : xsql.Query)
| ExecTxCall (on : Handle) (ctx : Context) (ql : list xsql.Query).

(** Modelled from the spec: the interface [xsql.DB] of pkg/clients/xsql, as
    far as the reconciler uses it: [Scan(ctx, query, dest) error] for scalar
    reads and [ExecTx(ctx, statements) error] for atomic execution.  A
    handle is any answer to these calls: it answers from the calls made so
    far (oldest first), the context and the query.  [Scan] into an [*int] or
    a [*bool] either fails or stores the scanned value. *)
Record DB : Type := mkDB {
  ScanInt : list Call -> Context -> xsql.Query -> error + Z;
  ScanBool : list Call -> Context -> xsql.Query -> error + bool;
  ExecTx : list Call -> Context -> list xsql.Query -> option error
}.

(** [external] (its [kube] client is not used by the verbs). *)
Record external : Type := mkExternal {
  db : DB;
  dbDatabase : DB
}.

Definition handle (c : external) (on : Handle) : DB :=
  match on with
  | OnDb => db c
  | OnDbDatabase => dbDatabase c
  end.

(** The store: the object [mg] points to, and the calls made so far. *)
Record Store : Type := mkStore {
  target : Managed;
  calls : list Call
}.

Inductive Result (A : Type) : Type :=
| Returns (a : A)
| Panics (reason : string).

Arguments Panics {A} reason.

Definition M (A : Type) : Type := Store -> Result A * Store.

Definition ret {A : Type} (a : A) : M A := fun st => (Returns a, st).

Definition bind {A B : Type} (m : M A) (k : A -> M B) : M B :=
  fun st =>
    match m st with
    | (Returns a, st') => k a st'
    | (Panics reason, st') => (Panics reason, st')
    end.

Declare Scope go_scope.
Delimit Scope go_scope with go.
Notation "x <- m ;; k" := (bind m (fun x => k))
  (at level 61, m at next level, right associativity) : go_scope.
Notation "' pat <- m ;; k" := (bind m (fun x => match x with pat => k end))
  (at level 61, pat pattern, m at next level, right associativity) : go_scope.
Notation "m ;; k" := (bind m (fun _ => k))
  (at level 61, right associativity) : go_scope.
Open Scope go_scope.

(** The interface value [mg], read through the pointer. *)
Definition getManaged : M Managed := fun st => (Returns (target st), st).

(** [cr.SetConditions(c)] on the object in the store. *)
Definition SetConditions (c : xpv1.Condition) : M unit :=
  fun st =>
    match target st with
    | IsDefaultPrivilege cr =>
        (Returns tt, mkStore (IsDefaultPrivilege (v1alpha1.SetConditions cr c)) (calls st))
    | _ => (Returns tt, st)
    end.

Definition nilDereference : string :=
  "runtime error: invalid memory address or nil pointer dereference".

(** [*p]. *)
Definition deref {A : Type} (p : option A) : M A :=
  match p with
  | Some v => ret v
  | None => fun st => (Panics nilDereference, st)
  end.

Definition isNil {A : Type} (p : option A) : bool :=
  match p with
  | Some _ => false
  | None => true
  end.

(** [c.<on>.Scan(ctx, q, &dest)] and [c.<on>.ExecTx(ctx, ql)]: the handle
    answers and the call is recorded. *)
Definition scanInt (c : external) (on : Handle) (ctx : Context) (q : xsql.Query)
  : M (error + Z) :=
  fun st => (Returns (ScanInt (handle c on) (calls st) ctx q),
             mkStore (target st) ((calls st ++ [ScanCall on ctx q])%list)).

Definition scanBool (c : external) (on : Handle) (ctx : Context) (q : xsql.Query)
  : M (error + bool) :=
  fun st => (Returns (ScanBool (handle c on) (calls st) ctx q),
             mkStore (target st) ((calls st ++ [ScanCall on ctx q])%list)).

Definition execTx (c : external) (on : Handle) (ctx : Context) (ql : list xsql.Query)
  : M (option error) :=
  fun st => (Returns (ExecTx (handle c on) (calls st) ctx ql),
             mkStore (target st) ((calls st ++ [ExecTxCall on ctx ql])%list)).

(* ------------------------------------------------------------------ *)
(** ** pkg/controller/postgresql/defaultprivileges/reconciler.go       *)
(* ------------------------------------------------------------------ *)

Definition errNot : string := "managed resource is not a  custom resource".
Definition errSelectDefaultPerms : string := "cannot select default permissions ".
Definition errCreateDefaultPermsQuery : string := "cannot create default permissions query".
Definition errSelectRoleId : string := "cannot select role id ".
Definition errCreateDefaultPerms : string := "cannot create default permissions ".
Definition errRevokeDefaultPerms : string := "cannot revoke default permissions ".
Definition errRevokeDefaultPermsQuery : string := "cannot create revoke default permissions query".
Definition errNoRole : string := "role not passed or could not be resolved".
Definition errNoOwner : string := "owner not passed or could not be resolved".
Definition errNoSchema : string := "schema not passed or could not be resolved".
Definition errNoDatabase : string := "database not passed or could not be resolved".
Definition errNoPrivileges : string := "privileges not passed".
Definition errUnknown : string := "cannot identify  type based on passed params".

(** The database the second handle of [Connect] is opened on: the declared
    database when set, else the provider configuration's default. *)
Definition crateDb (DefaultDatabase : string) (cr : v1alpha1.DefaultPrivilege) : string :=
  match v1alpha1.Database (v1alpha1.ForProvider (v1alpha1.Spec cr)) with
  | Some database => database
  | None => DefaultDatabase
  end.

Definition roleOIDQuery (roleName : string) : xsql.Query :=
  xsql.mkQuery ("SELECT oid FROM pg_roles WHERE rolname = $1;" ++ nl)
               [xsql.StringParam roleName].

Definition GetRoleOID (c : external) (roleName : string) : M (Z * option error) :=
  let q := roleOIDQuery roleName in
  r <- scanInt c OnDb Background q ;;
  match r with
  | inl err => ret (0%Z, Some (fmt.Errorf "could not find oid for role " roleName err))
  | inr oid => ret (oid, None)
  end.

Definition databaseExistsQuery (dbNAme : string) : xsql.Query :=
  xsql.mkQuery
    ("SELECT EXISTS (SELECT datname FROM pg_catalog.pg_database WHERE datname = $1);" ++ nl)
    [xsql.StringParam dbNAme].

(** [DataBaseExits]: the pair is the value left in [*exists] and the error.
    The [ctx] argument is not the context given to [Scan]. *)
Definition DataBaseExits (c : external) (ctx : Context) (dbNAme : string) (exists_ : bool)
  : M (bool * option error) :=
  let q := databaseExistsQuery dbNAme in
  r <- scanBool c OnDb Background q ;;
  match r with
  | inl err => ret (exists_, Some (fmt.Errorf "could not find database " dbNAme err))
  | inr found => ret (found, None)
  end.

Definition selectQueryString : string :=
  nl ++
  tab ++ "SELECT EXISTS (" ++ nl ++
  tab ++ "SELECT 1 FROM (" ++ nl ++
  tab ++ tab ++ "SELECT defaclnamespace, (aclexplode(defaclacl)).* FROM pg_default_acl" ++ nl ++
  " " ++ tab ++ tab ++ "WHERE defaclobjtype = 'r'" ++ nl ++
  tab ++ ") AS t (namespace, grantor_oid, grantee_oid, prtype, grantable)" ++ nl ++
  tab ++ "JOIN pg_namespace ON pg_namespace.oid = namespace" ++ nl ++
  tab ++ "WHERE grantee_oid = $1 AND nspname = 'public' AND grantor_oid = $2" ++ nl ++
  "   " ++ tab ++ ");" ++ nl ++
  tab.

(** [selectQuery]: the query left in [*q], and the (nil) error. *)
Definition selectQuery (ownerID roleID : Z) : xsql.Query * option error :=
  (xsql.mkQuery selectQueryString [xsql.IntParam roleID; xsql.IntParam ownerID], None).

(** [createQueries]: the list left in [*ql], and the error. *)
Definition createQueries (gp : v1alpha1.DefaultPrivilegeParameters) (ql : list xsql.Query)
  : M (list xsql.Query * option error) :=
  if isNil (v1alpha1.Role gp) then ret (ql, Some (errors.New errNoRole)) else
  if isNil (v1alpha1.Schema gp) then ret (ql, Some (errors.New errNoSchema)) else
  if isNil (v1alpha1.Privileges gp) then ret (ql, Some (errors.New errNoPrivileges)) else
  if isNil (v1alpha1.Owner gp) then ret (ql, Some (errors.New errNoOwner)) else
  role <- deref (v1alpha1.Role gp) ;;
  let ro := pq.QuoteIdentifier role in
  schema_ <- deref (v1alpha1.Schema gp) ;;
  let schema := pq.QuoteIdentifier schema_ in
  let p := strings.Join (v1alpha1.ToStringSlice (v1alpha1.Privileges gp)) "," in
  if (String.length p =? 0)%nat then ret (ql, Some (errors.New errNoPrivileges)) else
  owner <- deref (v1alpha1.Owner gp) ;;
  ret ((ql ++
       [ xsql.mkQuery ("SET ROLE " ++ pq.QuoteIdentifier owner ++ " ") [];
         xsql.mkQuery ("ALTER DEFAULT PRIVILEGES FOR ROLE " ++ pq.QuoteIdentifier owner
                       ++ " IN SCHEMA " ++ pq.QuoteIdentifier schema_
                       ++ " REVOKE ALL ON TABLES FROM " ++ ro) [];
         xsql.mkQuery ("ALTER DEFAULT PRIVILEGES FOR ROLE " ++ pq.QuoteIdentifier owner
                       ++ " IN SCHEMA " ++ schema
                       ++ "  GRANT  " ++ p ++ " ON TABLES TO " ++ ro) [] ])%list,
       None).

(** [deleteQuery]: the list left in [*ql], and the error. *)
Definition deleteQuery (gp : v1alpha1.DefaultPrivilegeParameters) (ql : list xsql.Query)
  : M (list xsql.Query * option error) :=
  if isNil (v1alpha1.Role gp) then ret (ql, Some (errors.New errNoRole)) else
  if isNil (v1alpha1.Schema gp) then ret (ql, Some (errors.New errNoSchema)) else
  role <- deref (v1alpha1.Role gp) ;;
  let ro := pq.QuoteIdentifier role in
  owner <- deref (v1alpha1.Owner gp) ;;
  schema_ <- deref (v1alpha1.Schema gp) ;;
  ret ((ql ++
       [ xsql.mkQuery ("SET ROLE " ++ pq.QuoteIdentifier owner ++ " ") [];
         xsql.mkQuery ("ALTER DEFAULT PRIVILEGES FOR ROLE " ++ pq.QuoteIdentifier owner
                       ++ "  IN SCHEMA " ++ pq.QuoteIdentifier schema_
                       ++ " REVOKE ALL ON TABLES FROM " ++ ro) [] ])%list,
       None).

Definition Observe (c : external) (ctx : Context)
  : M (managed.ExternalObservation * option error) :=
  mg <- getManaged ;;
  match mg with
  | IsDefaultPrivilege cr =>
      if isNil (v1alpha1.Role (v1alpha1.ForProvider (v1alpha1.Spec cr)))
      then ret (managed.noObservation, Some (errors.New errNoRole)) else
      let gp := v1alpha1.ForProvider (v1alpha1.Spec cr) in
      role <- deref (v1alpha1.Role gp) ;;
      '(roleId, err) <- GetRoleOID c role ;;
      if negb (isNil err) then ret (managed.noObservation, errors.Wrap err errSelectRoleId) else
      owner <- deref (v1alpha1.Owner gp) ;;
      '(ownerId, err) <- GetRoleOID c owner ;;
      if negb (isNil err) then ret (managed.noObservation, errors.Wrap err errSelectRoleId) else
      let '(query, err) := selectQuery ownerId roleId in
      if negb (isNil err) then ret (managed.noObservation, err) else
      r <- scanBool c OnDbDatabase ctx query ;;
      match r with
      | inl err => ret (managed.noObservation, errors.Wrap (Some err) errSelectDefaultPerms)
      | inr exists_ =>
          if negb exists_ then ret (managed.mkObservation false false false, None) else
          SetConditions xpv1.Available ;;
          ret (managed.mkObservation true true false, None)
      end
  | _ => ret (managed.noObservation, Some (errors.New errNot))
  end.

Definition Create (c : external) (ctx : Context)
  : M (managed.ExternalCreation * option error) :=
  mg <- getManaged ;;
  match mg with
  | IsDefaultPrivilege cr =>
      SetConditions xpv1.Creating ;;
      '(queries, err) <- createQueries (v1alpha1.ForProvider (v1alpha1.Spec cr)) [] ;;
      if negb (isNil err)
      then ret (managed.mkCreation [], errors.Wrap err errCreateDefaultPermsQuery) else
      err <- execTx c OnDbDatabase ctx queries ;;
      if negb (isNil err)
      then ret (managed.mkCreation [], errors.Wrap err errCreateDefaultPerms) else
      ret (managed.mkCreation [], errors.Wrap err errUnknown)
  | _ => ret (managed.mkCreation [], Some (errors.New errNot))
  end.

Definition Update (c : external) (ctx : Context)
  : M (managed.ExternalUpdate * option error) :=
  ret (managed.mkUpdate [], None).

Definition Delete (c : external) (ctx : Context) : M (option error) :=
  mg <- getManaged ;;
  match mg with
  | IsDefaultPrivilege cr =>
      SetConditions xpv1.Deleting ;;
      let dbExists := false in
      dbName <- deref (v1alpha1.Database (v1alpha1.ForProvider (v1alpha1.Spec cr))) ;;
      '(dbExists, err) <- DataBaseExits c ctx dbName dbExists ;;
      if negb (isNil err) then ret (errors.Wrap err errRevokeDefaultPerms) else
      if negb dbExists then ret None else
      '(queries, err) <- deleteQuery (v1alpha1.ForProvider (v1alpha1.Spec cr)) [] ;;
      if negb (isNil err) then ret (errors.Wrap err errRevokeDefaultPermsQuery) else
      err <- execTx c OnDbDatabase ctx queries ;;
      if negb (isNil err) then ret (errors.Wrap err errRevokeDefaultPerms) else
      ret None
  | _ => ret (Some (errors.New errNot))
  end.

(* ------------------------------------------------------------------ *)
(** ** Handles and objects used in the examples                        *)
(* ------------------------------------------------------------------ *)

(** A handle that finds identity [oid] for every role, answers every
    boolean probe with [found], and commits every transaction. *)
Definition constDB (oid : Z) (found : bool) : DB :=
  mkDB (fun _ _ _ => inr oid) (fun _ _ _ => inr found) (fun _ _ _ => None).

(** A handle that fails every call whose context is not the background
    context (as after cancellation of every derived context). *)
Definition isBackground (ctx : Context) : bool :=
  match ctx with
  | Background => true
  | Derived _ _ => false
  end.

Definition canceled : error := Fundamental "context canceled".

Definition cancelingDB (oid : Z) (found : bool) : DB :=
  mkDB (fun _ ctx _ => if isBackground ctx then inr oid else inl canceled)
       (fun _ ctx _ => if isBackground ctx then inr found else inl canceled)
       (fun _ ctx _ => if isBackground ctx then None else Some canceled).

Definition object (role owner schema database : option string)
    (privileges : option (list string)) : v1alpha1.DefaultPrivilege :=
  v1alpha1.mkDefaultPrivilege
    (v1alpha1.mkSpec (v1alpha1.mkParameters privileges role owner schema database))
    (v1alpha1.mkStatus []).

(** The object of the scenario: role r, owner o, schema s, database d,
    privileges ALL. *)
Definition scenario : v1alpha1.DefaultPrivilege :=
  object (Some "r") (Some "o") (Some "s") (Some "d") (Some ["ALL"]).

Definition start (mg : Managed) : Store := mkStore mg [].

(* ------------------------------------------------------------------ *)
(** ** Reading a store; the objects of the properties                  *)
(* ------------------------------------------------------------------ *)

Definition isExecTx (call : Call) : bool :=
  match call with
  | ExecTxCall _ _ _ => true
  | ScanCall _ _ _ => false
  end.

(** The calls to the transactional executor among [l]. *)
Definition executorCalls (l : list Call) : list Call := filter isExecTx l.

Definition callContext (call : Call) : Context :=
  match call with
  | ScanCall _ ctx _ => ctx
  | ExecTxCall _ ctx _ => ctx
  end.

(** The conditions of the object in the store (none for another kind). *)
Definition conditionsOf (mg : Managed) : list xpv1.Condition :=
  match mg with
  | IsDefaultPrivilege cr => v1alpha1.Conditions (v1alpha1.Status cr)
  | _ => []
  end.

Definition isDefaultPrivilege (mg : Managed) : bool :=
  match mg with
  | IsDefaultPrivilege _ => true
  | _ => false
  end.

(** [name] between double quotes. *)
Definition quoted (name : string) : string :=
  String dquote name ++ String dquote EmptyString.

(** [sub] occurs in [s]. *)
Fixpoint contains (sub s : string) : bool :=
  String.prefix sub s ||
  match s with
  | EmptyString => false
  | String _ rest => contains sub rest
  end.

(** What [createQueries] answers when a field is missing: the first missing
    one in the order role, schema, privileges, owner names the error, and
    the list is left as it was. *)
Definition createValidation (gp : v1alpha1.DefaultPrivilegeParameters) : option string :=
  match v1alpha1.Role gp, v1alpha1.Schema gp, v1alpha1.Privileges gp, v1alpha1.Owner gp with
  | None, _, _, _ => Some errNoRole
  | Some _, None, _, _ => Some errNoSchema
  | Some _, Some _, None, _ => Some errNoPrivileges
  | Some _, Some _, Some _, None => Some errNoOwner
  | Some _, Some _, Some l, Some _ =>
      if String.eqb (strings.Join l ",") "" then Some errNoPrivileges else None
  end.

(** Handles of the scenario: every role has identity 1, every probe
    answers true, every transaction commits. *)
Definition scenarioClient : external := mkExternal (constDB 1 true) (constDB 1 true).

(** A cancellable context, as the verbs receive. *)
Definition scenarioCtx : Context := Derived Background 1.

(** The statement texts of the scenario as the specification prints them. *)
Definition claimedInstall : list string :=
  [ "SET ROLE o";
    "ALTER DEFAULT PRIVILEGES FOR ROLE o IN SCHEMA s REVOKE ALL ON TABLES FROM r";
    "ALTER DEFAULT PRIVILEGES FOR ROLE o IN SCHEMA s GRANT ALL ON TABLES TO r" ].

(** The statement texts Create builds for the scenario. *)
Definition scenarioInstall : list string :=
  [ "SET ROLE " ++ quoted "o" ++ " ";
    "ALTER DEFAULT PRIVILEGES FOR ROLE " ++ quoted "o" ++ " IN SCHEMA " ++ quoted "s"
      ++ " REVOKE ALL ON TABLES FROM " ++ quoted "r";
    "ALTER DEFAULT PRIVILEGES FOR ROLE " ++ quoted "o" ++ " IN SCHEMA " ++ quoted "s"
      ++ "  GRANT  ALL ON TABLES TO " ++ quoted "r" ].

(** Two objects that differ in nothing but the schema. *)
Definition sameButSchema (cr1 cr2 : v1alpha1.DefaultPrivilege) : Prop :=
  let gp1 := v1alpha1.ForProvider (v1alpha1.Spec cr1) in
  let gp2 := v1alpha1.ForProvider (v1alpha1.Spec cr2) in
  v1alpha1.Role gp1 = v1alpha1.Role gp2
  /\ v1alpha1.Owner gp1 = v1alpha1.Owner gp2
  /\ v1alpha1.Privileges gp1 = v1alpha1.Privileges gp2
  /\ v1alpha1.Database gp1 = v1alpha1.Database gp2
  /\ v1alpha1.Status cr1 = v1alpha1.Status cr2.

(** The object with another schema and other privileges. *)
Definition withSchemaPrivileges (schema : option string)
    (privileges : v1alpha1.DefaultPrivilegePrivileges) (cr : v1alpha1.DefaultPrivilege)
  : v1alpha1.DefaultPrivilege :=
  let gp := v1alpha1.ForProvider (v1alpha1.Spec cr) in
  v1alpha1.mkDefaultPrivilege
    (v1alpha1.mkSpec (v1alpha1.mkParameters privileges (v1alpha1.Role gp)
                        (v1alpha1.Owner gp) schema (v1alpha1.Database gp)))
    (v1alpha1.Status cr).

(* ------------------------------------------------------------------ *)
(** ** The connector                                                   *)
(* ------------------------------------------------------------------ *)

(** [xpv1.Reference], [xpv1.Selector] and [xpv1.SecretReference], as far as
    they are passed around here. *)
Record Reference : Type := mkReference {
  RefName : string
}.

Record Selector : Type := mkSelector {
  MatchLabels : list (string * string)
}.

Record SecretReference : Type := mkSecretReference {
  SecretNamespace : string;
  SecretName : string
}.

(** Modelled from the spec: the [ProviderConfig] type of this API group is
    not among the sources; these are the fields [Connect] reads: the
    reference to the credentials secret, the provider-wide default database
    and the SSL mode. *)
Record ProviderConfig : Type := mkProviderConfig {
  ConnectionSecretRef : option SecretReference;
  DefaultDatabase : string;
  SSLMode : option string
}.

(** The [Data] of a [corev1.Secret]. *)
Definition SecretData : Type := list (string * string).

(** [client.Client], as far as [Connect] uses it: [Get] of a ProviderConfig
    by name and of a Secret by namespace and name.  A [Get] that succeeds
    leaves the object it was given filled in. *)
Record Client : Type := mkClient {
  GetProviderConfig : Context -> string -> error + ProviderConfig;
  GetSecret : Context -> string -> string -> error + SecretData
}.

(** [connector]. *)
Record connector : Type := mkConnector {
  kube : Client;
  usage : Context -> Managed -> option error;
  newDB : SecretData -> string -> string -> DB
}.

(** The calls [Connect] makes on its collaborators. *)
Inductive ConnectorCall : Type :=
| TrackCall (ctx : Context) (mg : Managed)
| GetProviderConfigCall (ctx : Context) (name : string)
| GetSecretCall (ctx : Context) (namespace name : string).

Definition errTrackPCUsage : string := "cannot track ProviderConfig usage".
Definition errGetPC : string := "cannot get ProviderConfig".
Definition errNoSecretRef : string := "ProviderConfig does not reference a credentials Secret".
Definition errGetSecret : string := "cannot get credentials Secret".

Section Connector.

(** Two functions of this repository that are not among the sources: the
    generated accessor of the object's provider-configuration reference,
    and [clients.ToString] on the SSL mode. *)
Variable GetProviderConfigReference : v1alpha1.DefaultPrivilege -> option Reference.
Variable ToString : option string -> string.

(** [Connect]: the result (the client and the error, or a panic) and the
    calls made, oldest first. *)
Definition Connect (c : connector) (ctx : Context) (mg : Managed)
  : Result (option external * option error) * list ConnectorCall :=
  match mg with
  | IsDefaultPrivilege cr =>
      match usage c ctx mg with
      | Some err => (Returns (None, errors.Wrap (Some err) errTrackPCUsage),
                     [TrackCall ctx mg])
      | None =>
      match GetProviderConfigReference cr with
      | None => (Panics nilDereference, [TrackCall ctx mg])
      | Some pcRef =>
      match GetProviderConfig (kube c) ctx (RefName pcRef) with
      | inl err => (Returns (None, errors.Wrap (Some err) errGetPC),
                    [TrackCall ctx mg; GetProviderConfigCall ctx (RefName pcRef)])
      | inr pc =>
      match ConnectionSecretRef pc with
      | None => (Returns (None, Some (errors.New errNoSecretRef)),
                 [TrackCall ctx mg; GetProviderConfigCall ctx (RefName pcRef)])
      | Some ref =>
      match GetSecret (kube c) ctx (SecretNamespace ref) (SecretName ref) with
      | inl err => (Returns (None, errors.Wrap (Some err) errGetSecret),
                    [TrackCall ctx mg; GetProviderConfigCall ctx (RefName pcRef);
                     GetSecretCall ctx (SecretNamespace ref) (SecretName ref)])
      | inr data =>
          (Returns (Some (mkExternal (newDB c data (DefaultDatabase pc) (ToString (SSLMode pc)))
                                     (newDB c data (crateDb (DefaultDatabase pc) cr)
                                            (ToString (SSLMode pc)))),
                    None),
           [TrackCall ctx mg; GetProviderConfigCall ctx (RefName pcRef);
            GetSecretCall ctx (SecretNamespace ref) (SecretName ref)])
      end end end end end
  | _ => (Returns (None, Some (errors.New errNot)), [])
  end.

End Connector.

(* ------------------------------------------------------------------ *)
(** ** Resolution of references                                        *)
(* ------------------------------------------------------------------ *)

Module reference.
(** crossplane-runtime, package reference: the kinds a request resolves
    against, requests and responses, and the two pointer adapters. *)
Inductive Target : Type :=
| ToDatabase
| ToRole.

Record ResolutionRequest : Type := mkRequest {
  CurrentValue : string;
  RequestReference : option Reference;
  RequestSelector : option Selector;
  To : Target
}.

Record ResolutionResponse : Type := mkResponse {
  ResolvedValue : string;
  ResolvedReference : option Reference
}.

Definition FromPtrValue (v : option string) : string :=
  match v with
  | None => ""
  | Some s => s
  end.

Definition ToPtrValue (v : string) : option string :=
  if String.eqb v "" then None else Some v.

(** An API resolver: it answers a request from the requests made before
    (oldest first) and the context. *)
Definition Resolver : Type :=
  list ResolutionRequest -> Context -> ResolutionRequest -> error + ResolutionResponse.
End reference.

(** The reference and selector fields of [DefaultPrivilegeParameters], which
    [v1alpha1.DefaultPrivilegeParameters] above leaves out. *)
Record References : Type := mkReferences {
  OwnerRef : option Reference;
  OwnerSelector : option Selector;
  RoleRef : option Reference;
  RoleSelector : option Selector;
  DatabaseRef : option Reference;
  DatabaseSelector : option Selector
}.

(** What [ResolveReferences] leaves behind: the parameters and references of
    the object, the error, and the requests made. *)
Record Resolution : Type := mkResolution {
  parameters : v1alpha1.DefaultPrivilegeParameters;
  references : References;
  resolveError : option error;
  requests : list reference.ResolutionRequest
}.

Definition setDatabase (gp : v1alpha1.DefaultPrivilegeParameters) (v : option string)
  : v1alpha1.DefaultPrivilegeParameters :=
  v1alpha1.mkParameters (v1alpha1.Privileges gp) (v1alpha1.Role gp) (v1alpha1.Owner gp)
                        (v1alpha1.Schema gp) v.

Definition setRole (gp : v1alpha1.DefaultPrivilegeParameters) (v : option string)
  : v1alpha1.DefaultPrivilegeParameters :=
  v1alpha1.mkParameters (v1alpha1.Privileges gp) v (v1alpha1.Owner gp)
                        (v1alpha1.Schema gp) (v1alpha1.Database gp).

Definition setOwner (gp : v1alpha1.DefaultPrivilegeParameters) (v : option string)
  : v1alpha1.DefaultPrivilegeParameters :=
  v1alpha1.mkParameters (v1alpha1.Privileges gp) (v1alpha1.Role gp) v
                        (v1alpha1.Schema gp) (v1alpha1.Database gp).

Definition setDatabaseRef (refs : References) (v : option Reference) : References :=
  mkReferences (OwnerRef refs) (OwnerSelector refs) (RoleRef refs) (RoleSelector refs)
               v (DatabaseSelector refs).

Definition setRoleRef (refs : References) (v : option Reference) : References :=
  mkReferences (OwnerRef refs) (OwnerSelector refs) v (RoleSelector refs)
               (DatabaseRef refs) (DatabaseSelector refs).

Definition setOwnerRef (refs : References) (v : option Reference) : References :=
  mkReferences v (OwnerSelector refs) (RoleRef refs) (RoleSelector refs)
               (DatabaseRef refs) (DatabaseSelector refs).

(** The three requests, from the parameters and references at the time. *)
Definition databaseRequest (gp : v1alpha1.DefaultPrivilegeParameters) (refs : References)
  : reference.ResolutionRequest :=
  reference.mkRequest (reference.FromPtrValue (v1alpha1.Database gp))
                      (DatabaseRef refs) (DatabaseSelector refs) reference.ToDatabase.

Definition roleRequest (gp : v1alpha1.DefaultPrivilegeParameters) (refs : References)
  : reference.ResolutionRequest :=
  reference.mkRequest (reference.FromPtrValue (v1alpha1.Role gp))
                      (RoleRef refs) (RoleSelector refs) reference.ToRole.

Definition ownerRequest (gp : v1alpha1.DefaultPrivilegeParameters) (refs : References)
  : reference.ResolutionRequest :=
  reference.mkRequest (reference.FromPtrValue (v1alpha1.Owner gp))
                      (OwnerRef refs) (OwnerSelector refs) reference.ToRole.

(** [ResolveReferences]: database, then role, then owner; each resolved
    value and reference is written to the object before the next request,
    and the first error ends the resolution. *)
Definition ResolveReferences (r : reference.Resolver) (ctx : Context)
    (gp : v1alpha1.DefaultPrivilegeParameters) (refs : References) : Resolution :=
  let req1 := databaseRequest gp refs in
  match r [] ctx req1 with
  | inl err => mkResolution gp refs (errors.Wrap (Some err) "spec.forProvider.database") [req1]
  | inr rsp =>
  let gp1 := setDatabase gp (reference.ToPtrValue (reference.ResolvedValue rsp)) in
  let refs1 := setDatabaseRef refs (reference.ResolvedReference rsp) in
  let req2 := roleRequest gp1 refs1 in
  match r [req1] ctx req2 with
  | inl err => mkResolution gp1 refs1 (errors.Wrap (Some err) "spec.forProvider.role") [req1; req2]
  | inr rsp =>
  let gp2 := setRole gp1 (reference.ToPtrValue (reference.ResolvedValue rsp)) in
  let refs2 := setRoleRef refs1 (reference.ResolvedReference rsp) in
  let req3 := ownerRequest gp2 refs2 in
  match r [req1; req2] ctx req3 with
  | inl err =>
      mkResolution gp2 refs2 (errors.Wrap (Some err) "spec.forProvider.owner") [req1; req2; req3]
  | inr rsp =>
      mkResolution (setOwner gp2 (reference.ToPtrValue (reference.ResolvedValue rsp)))
                   (setOwnerRef refs2 (reference.ResolvedReference rsp))
                   None [req1; req2; req3]
  end end end.

(** A resolver that has nothing to look up: it answers every request with
    the current value and the reference of the request. *)
Definition echoResolver : reference.Resolver :=
  fun _ _ req => inr (reference.mkResponse (reference.CurrentValue req)
                                           (reference.RequestReference req)).

(** [ToPtrValue] after [FromPtrValue]: a pointer to the empty string
    becomes nil. *)
Definition normalize (v : option string) : option string :=
  reference.ToPtrValue (reference.FromPtrValue v).

(* ------------------------------------------------------------------ *)
(** ** More readings of results and stores                             *)
(* ------------------------------------------------------------------ *)

Definition panics {A : Type} (r : Result A) : bool :=
  match r with
  | Panics _ => true
  | Returns _ => false
  end.

Definition specOf (mg : Managed) : option v1alpha1.DefaultPrivilegeSpec :=
  match mg with
  | IsDefaultPrivilege cr => Some (v1alpha1.Spec cr)
  | _ => None
  end.

(** The error a verb returned, when it returned. *)
Definition returnedError {A : Type} (r : Result (A * option error)) : option (option error) :=
  match r with
  | Returns (_, err) => Some err
  | Panics _ => None
  end.

(** A handle whose calls all fail with [err]. *)
Definition failingDB (err : error) : DB :=
  mkDB (fun _ _ _ => inl err) (fun _ _ _ => inl err) (fun _ _ _ => Some err).

Definition boom : error := Fundamental "boom".

Definition noRows : error := Fundamental "sql: no rows in result set".

Fixpoint lookupRole (roles : list (string * Z)) (name : string) : option Z :=
  match roles with
  | [] => None
  | (known, oid) :: rest => if String.eqb known name then Some oid else lookupRole rest name
  end.

(** A handle with a role catalog: the identity of a role is found when the
    role is in [roles]; every boolean probe is answered with [probe] and
    every transaction with [exec]. *)
Definition catalogDB (roles : list (string * Z)) (probe : error + bool) (exec : option error)
  : DB :=
  mkDB (fun _ _ q =>
          match xsql.Parameters q with
          | [xsql.StringParam name] =>
              match lookupRole roles name with
              | Some oid => inr oid
              | None => inl noRows
              end
          | _ => inl noRows
          end)
       (fun _ _ _ => probe)
       (fun _ _ _ => exec).

(** The object in the store after [SetConditions c]; another kind is left
    as it is. *)
Definition marked (c : xpv1.Condition) (mg : Managed) : Managed :=
  match mg with
  | IsDefaultPrivilege cr => IsDefaultPrivilege (v1alpha1.SetConditions cr c)
  | _ => mg
  end.

(** A connector for the examples: usage tracking answers [track], the
    client answers [pc] and [secret], and the handle opened on a database
    finds the length of the database name as the identity of every role. *)
Definition exampleConnector (track : option error) (pc : error + ProviderConfig)
    (secret : error + SecretData) : connector :=
  mkConnector (mkClient (fun _ _ => pc) (fun _ _ _ => secret))
              (fun _ _ => track)
              (fun _ database _ => constDB (Z.of_nat (String.length database)) true).

Definition exampleReference (cr : v1alpha1.DefaultPrivilege) : option Reference :=
  Some (mkReference "default").

Definition exampleProviderConfig : ProviderConfig :=
  mkProviderConfig (Some (mkSecretReference "crossplane-system" "db-conn")) "postgres" None.

Definition exampleSecret : SecretData := [("username", "admin"); ("password", "secret")].

(** A resolver over a table of external names: a request with a reference
    is answered with the name the table gives for it and fails when the
    table has none; a request without a reference is answered with its
    current value. *)
Definition tableResolver (names : list (string * string)) : reference.Resolver :=
  fun _ _ req =>
    match reference.RequestReference req with
    | None => inr (reference.mkResponse (reference.CurrentValue req) None)
    | Some ref =>
        match find (fun entry => String.eqb (fst entry) (RefName ref)) names with
        | Some entry => inr (reference.mkResponse (snd entry) (Some ref))
        | None => inl (Fundamental "referenced object not found")
        end
    end.

Definition noReferences : References := mkReferences None None None None None None.

Unset Implicit Arguments.

(* ------------------------------------------------------------------ *)
(** ** The statement builders                                          *)
(* ------------------------------------------------------------------ *)

(** Quoting on plain names, and on a name with a double quote and a NUL. *)
Example QuoteIdentifier_plain : pq.QuoteIdentifier "test-owner" = quoted "test-owner".
Proof. reflexivity. Qed.

Example QuoteIdentifier_escapes :
  pq.QuoteIdentifier ("a" ++ String dquote "b" ++ String NUL "c")
  = quoted ("a" ++ String dquote (String dquote "b")).
Proof. reflexivity. Qed.

Section Builders.

Variables (role owner schema : string) (database : option string).
Variable privileges : list string.

(** The install sequence of a complete object: assume the owner's role,
    revoke everything, grant the declared privileges. *)
Lemma createQueries_complete (ql : list xsql.Query) (st : Store) :
  strings.Join privileges "," <> "" ->
  createQueries (v1alpha1.mkParameters (Some privileges) (Some role) (Some owner)
                   (Some schema) database) ql st =
  (Returns ((ql ++
     [ xsql.mkQuery ("SET ROLE " ++ pq.QuoteIdentifier owner ++ " ") [];
       xsql.mkQuery ("ALTER DEFAULT PRIVILEGES FOR ROLE " ++ pq.QuoteIdentifier owner
                     ++ " IN SCHEMA " ++ pq.QuoteIdentifier schema
                     ++ " REVOKE ALL ON TABLES FROM " ++ pq.QuoteIdentifier role) [];
       xsql.mkQuery ("ALTER DEFAULT PRIVILEGES FOR ROLE " ++ pq.QuoteIdentifier owner
                     ++ " IN SCHEMA " ++ pq.QuoteIdentifier schema
                     ++ "  GRANT  " ++ strings.Join privileges "," ++ " ON TABLES TO "
                     ++ pq.QuoteIdentifier role) [] ])%list, None), st).
Proof.
  intros Hp. unfold createQueries. cbn [isNil v1alpha1.Role v1alpha1.Schema
    v1alpha1.Privileges v1alpha1.Owner deref bind ret v1alpha1.ToStringSlice].
  rewrite map_id.
  destruct (strings.Join privileges ",") as [|ch rest] eqn:Hjoin.
  - now elim Hp.
  - reflexivity.
Qed.

(** The revoke sequence of an object with role, owner and schema. *)
Lemma deleteQuery_complete (privs : v1alpha1.DefaultPrivilegePrivileges)
    (ql : list xsql.Query) (st : Store) :
  deleteQuery (v1alpha1.mkParameters privs (Some role) (Some owner) (Some schema) database) ql st =
  (Returns ((ql ++
     [ xsql.mkQuery ("SET ROLE " ++ pq.QuoteIdentifier owner ++ " ") [];
       xsql.mkQuery ("ALTER DEFAULT PRIVILEGES FOR ROLE " ++ pq.QuoteIdentifier owner
                     ++ "  IN SCHEMA " ++ pq.QuoteIdentifier schema
                     ++ " REVOKE ALL ON TABLES FROM " ++ pq.QuoteIdentifier role) [] ])%list,
            None), st).
Proof. reflexivity. Qed.

End Builders.

Lemma length_zero_eqb (s : string) : (String.length s =? 0)%nat = String.eqb s "".
Proof. destruct s; reflexivity. Qed.

Lemma createQueries_invalid (gp : v1alpha1.DefaultPrivilegeParameters)
    (ql : list xsql.Query) (st : Store) (msg : string) :
  createValidation gp = Some msg ->
  createQueries gp ql st = (Returns (ql, Some (errors.New msg)), st).
Proof.
  destruct gp as [privs role owner schema database].
  unfold createValidation, createQueries; cbn [v1alpha1.Role v1alpha1.Schema
    v1alpha1.Privileges v1alpha1.Owner].
  destruct role, schema, privs as [l|], owner; cbn [isNil deref bind ret];
    try (intros [= <-]; reflexivity).
  cbn [v1alpha1.ToStringSlice]. rewrite map_id, length_zero_eqb.
  destruct (String.eqb (strings.Join l ",") ""); [intros [= <-]; reflexivity | discriminate].
Qed.

(** [createQueries] never panics: it returns an error exactly when
    [createValidation] names one. *)
Lemma createQueries_total (gp : v1alpha1.DefaultPrivilegeParameters)
    (ql : list xsql.Query) (st : Store) :
  exists ql' err, createQueries gp ql st = (Returns (ql', err), st)
    /\ (err = None <-> createValidation gp = None).
Proof.
  destruct (createValidation gp) as [msg|] eqn:Hv.
  - exists ql, (Some (errors.New msg)). split; [now apply createQueries_invalid|].
    split; discriminate.
  - destruct gp as [privs role owner schema database].
    unfold createValidation in Hv; cbn [v1alpha1.Role v1alpha1.Schema
      v1alpha1.Privileges v1alpha1.Owner] in Hv.
    destruct role, schema, privs as [l|], owner; try discriminate.
    destruct (String.eqb_spec (strings.Join l ",") ""); [discriminate|].
    eexists _, None. split; [now apply createQueries_complete|]. split; reflexivity.
Qed.

(* ------------------------------------------------------------------ *)
(** ** Conditions                                                      *)
(* ------------------------------------------------------------------ *)

Lemma Equal_eq (c other : xpv1.Condition) : xpv1.Equal c other = true -> c = other.
Proof.
  destruct c as [t s r m], other as [t' s' r' m']. unfold xpv1.Equal. cbn.
  rewrite !andb_true_iff, !String.eqb_eq. intros [[[-> ->] ->] ->]. reflexivity.
Qed.

Lemma replace_found (new : xpv1.Condition) (cs : list xpv1.Condition) :
  snd (xpv1.replace new cs) = true ->
  xpv1.GetCondition (fst (xpv1.replace new cs)) (xpv1.Type_ new) = Some new.
Proof.
  unfold xpv1.GetCondition.
  induction cs as [|existing rest IH]; cbn; [discriminate|].
  destruct (xpv1.replace new rest) as [rest' found] eqn:Hrest. cbn in IH.
  destruct (String.eqb (xpv1.Type_ existing) (xpv1.Type_ new)) eqn:Hty; cbn.
  - destruct (xpv1.Equal existing new) eqn:Heq; cbn; intros _.
    + rewrite Hty. now rewrite (Equal_eq _ _ Heq).
    + now rewrite String.eqb_refl.
  - rewrite Hty. exact IH.
Qed.

Lemma replace_not_found (new : xpv1.Condition) (cs : list xpv1.Condition) :
  snd (xpv1.replace new cs) = false ->
  fst (xpv1.replace new cs) = cs
  /\ xpv1.GetCondition cs (xpv1.Type_ new) = None.
Proof.
  unfold xpv1.GetCondition.
  induction cs as [|existing rest IH]; cbn; [now split|].
  destruct (xpv1.replace new rest) as [rest' found] eqn:Hrest. cbn in IH.
  destruct (String.eqb (xpv1.Type_ existing) (xpv1.Type_ new)) eqn:Hty; cbn.
  - destruct (xpv1.Equal existing new); cbn; discriminate.
  - intros Hf. destruct (IH Hf) as [-> Hnone]. now split.
Qed.

Lemma find_app_none {A : Type} (f : A -> bool) (l l' : list A) :
  find f l = None -> find f (l ++ l') = find f l'.
Proof.
  induction l as [|a l IH]; cbn; [reflexivity|].
  destruct (f a); [discriminate | exact IH].
Qed.

(** After [SetConditions], the condition of the new condition's type is the
    new condition. *)
Lemma GetCondition_SetConditions (cs : list xpv1.Condition) (new : xpv1.Condition) :
  xpv1.GetCondition (xpv1.SetConditions cs new) (xpv1.Type_ new) = Some new.
Proof.
  unfold xpv1.SetConditions.
  pose proof (replace_found new cs) as Hfound.
  pose proof (replace_not_found new cs) as Hnot.
  destruct (xpv1.replace new cs) as [cs' [|]]; cbn in *.
  - now apply Hfound.
  - destruct (Hnot eq_refl) as [-> Hnone]. unfold xpv1.GetCondition in *.
    rewrite (find_app_none _ _ _ Hnone). cbn. now rewrite String.eqb_refl.
Qed.

Lemma Equal_refl (c : xpv1.Condition) : xpv1.Equal c c = true.
Proof. unfold xpv1.Equal. now rewrite !String.eqb_refl. Qed.

Lemma find_app {A : Type} (f : A -> bool) (l l' : list A) :
  find f (l ++ l') = match find f l with Some a => Some a | None => find f l' end.
Proof.
  induction l as [|a l IH]; cbn; [reflexivity|]. destruct (f a); [reflexivity | exact IH].
Qed.

(** [SetConditions] leaves the conditions of the other types alone. *)
Lemma GetCondition_SetConditions_other (cs : list xpv1.Condition) (new : xpv1.Condition)
    (ct : string) :
  ct <> xpv1.Type_ new ->
  xpv1.GetCondition (xpv1.SetConditions cs new) ct = xpv1.GetCondition cs ct.
Proof.
  intros Hct. unfold xpv1.SetConditions, xpv1.GetCondition.
  assert (Hnew : String.eqb (xpv1.Type_ new) ct = false).
  { apply String.eqb_neq. congruence. }
  assert (Hrep : find (fun c => String.eqb (xpv1.Type_ c) ct) (fst (xpv1.replace new cs))
                 = find (fun c => String.eqb (xpv1.Type_ c) ct) cs).
  { induction cs as [|existing rest IH]; cbn; [reflexivity|].
    destruct (xpv1.replace new rest) as [rest' found]. cbn in IH.
    destruct (String.eqb (xpv1.Type_ existing) (xpv1.Type_ new)) eqn:Hty; cbn.
    - apply String.eqb_eq in Hty.
      assert (Hex : String.eqb (xpv1.Type_ existing) ct = false) by (now rewrite Hty).
      destruct (xpv1.Equal existing new); cbn; rewrite ?Hex, ?Hnew; exact IH.
    - destruct (String.eqb (xpv1.Type_ existing) ct); [reflexivity | exact IH]. }
  destruct (xpv1.replace new cs) as [cs' [|]]; cbn in *; [exact Hrep|].
  rewrite find_app, Hrep. cbn. rewrite Hnew.
  now destruct (find _ cs).
Qed.

Lemma replace_replace (new : xpv1.Condition) (cs : list xpv1.Condition) :
  xpv1.replace new (fst (xpv1.replace new cs))
  = (fst (xpv1.replace new cs), snd (xpv1.replace new cs)).
Proof.
  induction cs as [|existing rest IH]; cbn; [reflexivity|].
  destruct (xpv1.replace new rest) as [rest' found]. cbn in IH.
  destruct (String.eqb (xpv1.Type_ existing) (xpv1.Type_ new)) eqn:Hty; cbn.
  - destruct (xpv1.Equal existing new) eqn:Heq; cbn; rewrite IH.
    + now rewrite Hty, Heq.
    + now rewrite String.eqb_refl, Equal_refl.
  - now rewrite IH, Hty.
Qed.

Lemma replace_appended (new : xpv1.Condition) (cs : list xpv1.Condition) :
  snd (xpv1.replace new cs) = false ->
  xpv1.replace new (cs ++ [new]) = ((cs ++ [new])%list, true).
Proof.
  induction cs as [|existing rest IH]; cbn.
  - intros _. now rewrite String.eqb_refl, Equal_refl.
  - destruct (xpv1.replace new rest) as [rest' found]. cbn in IH.
    destruct (String.eqb (xpv1.Type_ existing) (xpv1.Type_ new)) eqn:Hty; cbn.
    + destruct (xpv1.Equal existing new); cbn; discriminate.
    + intros Hf. now rewrite (IH Hf).
Qed.

(** Setting a condition twice is setting it once. *)
Lemma SetConditions_idempotent (cs : list xpv1.Condition) (new : xpv1.Condition) :
  xpv1.SetConditions (xpv1.SetConditions cs new) new = xpv1.SetConditions cs new.
Proof.
  unfold xpv1.SetConditions at 2 3.
  pose proof (replace_replace new cs) as Hrr.
  pose proof (replace_not_found new cs) as Hnf.
  pose proof (replace_appended new cs) as Hap.
  destruct (xpv1.replace new cs) as [cs' [|]]; cbn in *.
  - unfold xpv1.SetConditions. now rewrite Hrr.
  - destruct (Hnf eq_refl) as [-> _]. unfold xpv1.SetConditions. now rewrite (Hap eq_refl).
Qed.

(* ------------------------------------------------------------------ *)
(** ** The verbs                                                       *)
(* ------------------------------------------------------------------ *)

Ltac run_verb :=
  cbv [Observe Create Update Delete GetRoleOID DataBaseExits selectQuery
       scanInt scanBool execTx getManaged SetConditions deref isNil
       bind ret target calls handle negb fst snd errors.Wrap].

Section Verbs.

Variable c : external.
Variable ctx : Context.

(** A wrong-kind input makes Observe, Create and Delete return [errNot]
    with the store untouched. *)
Lemma wrong_kind (st : Store) :
  isDefaultPrivilege (target st) = false ->
  Observe c ctx st = (Returns (managed.noObservation, Some (errors.New errNot)), st)
  /\ Create c ctx st = (Returns (managed.mkCreation [], Some (errors.New errNot)), st)
  /\ Delete c ctx st = (Returns (Some (errors.New errNot)), st).
Proof.
  destruct st as [[| cr | kind] h]; cbn; try discriminate; intros _; repeat split.
Qed.

(** Observe without a role: [errNoRole], no call, no change. *)
Lemma Observe_no_role (cr : v1alpha1.DefaultPrivilege) (h : list Call) :
  v1alpha1.Role (v1alpha1.ForProvider (v1alpha1.Spec cr)) = None ->
  Observe c ctx (mkStore (IsDefaultPrivilege cr) h) =
  (Returns (managed.noObservation, Some (errors.New errNoRole)),
   mkStore (IsDefaultPrivilege cr) h).
Proof.
  intros Hrole. run_verb. rewrite Hrole. reflexivity.
Qed.

(** Observe with role and owner, when both identities are found and the
    existence probe answers. *)
Lemma Observe_resolved (cr : v1alpha1.DefaultPrivilege) (h : list Call)
    (role owner : string) (roleId ownerId : Z) (found : bool) :
  v1alpha1.Role (v1alpha1.ForProvider (v1alpha1.Spec cr)) = Some role ->
  v1alpha1.Owner (v1alpha1.ForProvider (v1alpha1.Spec cr)) = Some owner ->
  let h1 := (h ++ [ScanCall OnDb Background (roleOIDQuery role)])%list in
  let h2 := (h1 ++ [ScanCall OnDb Background (roleOIDQuery owner)])%list in
  let probe := xsql.mkQuery selectQueryString [xsql.IntParam roleId; xsql.IntParam ownerId] in
  let h3 := (h2 ++ [ScanCall OnDbDatabase ctx probe])%list in
  ScanInt (db c) h Background (roleOIDQuery role) = inr roleId ->
  ScanInt (db c) h1 Background (roleOIDQuery owner) = inr ownerId ->
  ScanBool (dbDatabase c) h2 ctx probe = inr found ->
  Observe c ctx (mkStore (IsDefaultPrivilege cr) h) =
  if found
  then (Returns (managed.mkObservation true true false, None),
        mkStore (IsDefaultPrivilege (v1alpha1.SetConditions cr xpv1.Available)) h3)
  else (Returns (managed.mkObservation false false false, None),
        mkStore (IsDefaultPrivilege cr) h3).
Proof.
  intros Hrole Howner h1 h2 probe h3 Hr Ho Hp. run_verb.
  rewrite Hrole, Hr, Howner. fold h1. rewrite Ho. fold h2. fold probe. rewrite Hp.
  destruct found; reflexivity.
Qed.

(** Observe with a role but no owner: the role's identity is looked up,
    and when it is found the owner is dereferenced. *)
Lemma Observe_no_owner (cr : v1alpha1.DefaultPrivilege) (h : list Call)
    (role : string) (roleId : Z) :
  v1alpha1.Role (v1alpha1.ForProvider (v1alpha1.Spec cr)) = Some role ->
  v1alpha1.Owner (v1alpha1.ForProvider (v1alpha1.Spec cr)) = None ->
  ScanInt (db c) h Background (roleOIDQuery role) = inr roleId ->
  Observe c ctx (mkStore (IsDefaultPrivilege cr) h) =
  (Panics nilDereference,
   mkStore (IsDefaultPrivilege cr) (h ++ [ScanCall OnDb Background (roleOIDQuery role)])).
Proof.
  intros Hrole Howner Hr. run_verb. rewrite Hrole, Hr, Howner. reflexivity.
Qed.

(** Observe reads the role and the owner of the specification, and the
    conditions; nothing else of the object. *)
Lemma Observe_reads_role_owner (cr1 cr2 : v1alpha1.DefaultPrivilege) (h : list Call) :
  v1alpha1.Role (v1alpha1.ForProvider (v1alpha1.Spec cr1))
    = v1alpha1.Role (v1alpha1.ForProvider (v1alpha1.Spec cr2)) ->
  v1alpha1.Owner (v1alpha1.ForProvider (v1alpha1.Spec cr1))
    = v1alpha1.Owner (v1alpha1.ForProvider (v1alpha1.Spec cr2)) ->
  v1alpha1.Status cr1 = v1alpha1.Status cr2 ->
  let out1 := Observe c ctx (mkStore (IsDefaultPrivilege cr1) h) in
  let out2 := Observe c ctx (mkStore (IsDefaultPrivilege cr2) h) in
  fst out1 = fst out2
  /\ calls (snd out1) = calls (snd out2)
  /\ conditionsOf (target (snd out1)) = conditionsOf (target (snd out2)).
Proof.
  destruct cr1 as [[[privs1 role1 owner1 schema1 database1]] status1].
  destruct cr2 as [[[privs2 role2 owner2 schema2 database2]] status2].
  cbn [v1alpha1.Role v1alpha1.Owner v1alpha1.ForProvider v1alpha1.Spec v1alpha1.Status].
  intros <- <- <-. run_verb.
  cbn [v1alpha1.Role v1alpha1.Owner v1alpha1.ForProvider v1alpha1.Spec v1alpha1.Status].
  destruct role1 as [role|]; [|repeat split].
  destruct (ScanInt (db c) h Background (roleOIDQuery role)) as [err|roleId]; [repeat split|].
  destruct owner1 as [owner|]; [|repeat split].
  destruct (ScanInt (db c) _ Background (roleOIDQuery owner)) as [err|ownerId]; [repeat split|].
  destruct (ScanBool (dbDatabase c) _ ctx _) as [err|[|]]; repeat split.
Qed.

(** Create on an object that fails validation: the validation error,
    wrapped; the condition Creating is set and no call is made. *)
Lemma Create_invalid (cr : v1alpha1.DefaultPrivilege) (h : list Call) (msg : string) :
  createValidation (v1alpha1.ForProvider (v1alpha1.Spec cr)) = Some msg ->
  Create c ctx (mkStore (IsDefaultPrivilege cr) h) =
  (Returns (managed.mkCreation [],
            Some (WithMessage (errors.New msg) errCreateDefaultPermsQuery)),
   mkStore (IsDefaultPrivilege (v1alpha1.SetConditions cr xpv1.Creating)) h).
Proof.
  intros Hv. run_verb. cbn [v1alpha1.SetConditions v1alpha1.Spec].
  rewrite (createQueries_invalid _ _ _ msg Hv). reflexivity.
Qed.

(** Create on a complete object: one call, [ExecTx] on the target-database
    handle with the context of the verb and the whole install sequence. *)
Lemma Create_complete (role owner schema : string) (database : option string)
    (privileges : list string) (status : v1alpha1.DefaultPrivilegeStatus) (h : list Call) :
  strings.Join privileges "," <> "" ->
  let cr := v1alpha1.mkDefaultPrivilege
              (v1alpha1.mkSpec (v1alpha1.mkParameters (Some privileges) (Some role)
                                  (Some owner) (Some schema) database)) status in
  let ql :=
    [ xsql.mkQuery ("SET ROLE " ++ pq.QuoteIdentifier owner ++ " ") [];
      xsql.mkQuery ("ALTER DEFAULT PRIVILEGES FOR ROLE " ++ pq.QuoteIdentifier owner
                    ++ " IN SCHEMA " ++ pq.QuoteIdentifier schema
                    ++ " REVOKE ALL ON TABLES FROM " ++ pq.QuoteIdentifier role) [];
      xsql.mkQuery ("ALTER DEFAULT PRIVILEGES FOR ROLE " ++ pq.QuoteIdentifier owner
                    ++ " IN SCHEMA " ++ pq.QuoteIdentifier schema
                    ++ "  GRANT  " ++ strings.Join privileges "," ++ " ON TABLES TO "
                    ++ pq.QuoteIdentifier role) [] ] in
  Create c ctx (mkStore (IsDefaultPrivilege cr) h) =
  (Returns (managed.mkCreation [],
            errors.Wrap (ExecTx (dbDatabase c) h ctx ql) errCreateDefaultPerms),
   mkStore (IsDefaultPrivilege (v1alpha1.SetConditions cr xpv1.Creating))
           (h ++ [ExecTxCall OnDbDatabase ctx ql])).
Proof.
  intros Hp cr ql. run_verb. cbn [v1alpha1.SetConditions v1alpha1.Spec v1alpha1.ForProvider cr].
  rewrite createQueries_complete by exact Hp. cbn [app]. fold ql.
  destruct (ExecTx (dbDatabase c) h ctx ql); reflexivity.
Qed.

(** Delete without a database: the nil pointer is dereferenced before any
    call is made. *)
Lemma Delete_no_database (cr : v1alpha1.DefaultPrivilege) (h : list Call) :
  v1alpha1.Database (v1alpha1.ForProvider (v1alpha1.Spec cr)) = None ->
  Delete c ctx (mkStore (IsDefaultPrivilege cr) h) =
  (Panics nilDereference,
   mkStore (IsDefaultPrivilege (v1alpha1.SetConditions cr xpv1.Deleting)) h).
Proof.
  intros Hdb. run_verb. rewrite Hdb. reflexivity.
Qed.

(** Delete when the probe cannot be made: the error of the handle, in
    [fmt.Errorf] and wrapped. *)
Lemma Delete_probe_fails (cr : v1alpha1.DefaultPrivilege) (h : list Call)
    (database : string) (err : error) :
  v1alpha1.Database (v1alpha1.ForProvider (v1alpha1.Spec cr)) = Some database ->
  ScanBool (db c) h Background (databaseExistsQuery database) = inl err ->
  Delete c ctx (mkStore (IsDefaultPrivilege cr) h) =
  (Returns (Some (WithMessage (fmt.Errorf "could not find database " database err)
                              errRevokeDefaultPerms)),
   mkStore (IsDefaultPrivilege (v1alpha1.SetConditions cr xpv1.Deleting))
           (h ++ [ScanCall OnDb Background (databaseExistsQuery database)])).
Proof.
  intros Hdb Hprobe. run_verb. rewrite Hdb, Hprobe. reflexivity.
Qed.

(** Delete when the database is there: the revoke sequence is built from
    the specification and, if that succeeds, executed. *)
Lemma Delete_database_exists (cr : v1alpha1.DefaultPrivilege) (h : list Call)
    (database : string) :
  v1alpha1.Database (v1alpha1.ForProvider (v1alpha1.Spec cr)) = Some database ->
  ScanBool (db c) h Background (databaseExistsQuery database) = inr true ->
  let cr' := v1alpha1.SetConditions cr xpv1.Deleting in
  let h1 := (h ++ [ScanCall OnDb Background (databaseExistsQuery database)])%list in
  Delete c ctx (mkStore (IsDefaultPrivilege cr) h) =
  match deleteQuery (v1alpha1.ForProvider (v1alpha1.Spec cr)) []
                    (mkStore (IsDefaultPrivilege cr') h1) with
  | (Returns (ql, None), _) =>
      (Returns (errors.Wrap (ExecTx (dbDatabase c) h1 ctx ql) errRevokeDefaultPerms),
       mkStore (IsDefaultPrivilege cr') (h1 ++ [ExecTxCall OnDbDatabase ctx ql]))
  | (Returns (_, Some err), _) =>
      (Returns (Some (WithMessage err errRevokeDefaultPermsQuery)),
       mkStore (IsDefaultPrivilege cr') h1)
  | (Panics reason, _) => (Panics reason, mkStore (IsDefaultPrivilege cr') h1)
  end.
Proof.
  intros Hdb Hprobe cr' h1. run_verb. rewrite Hdb, Hprobe. fold h1.
  change (v1alpha1.SetConditions cr xpv1.Deleting) with cr'.
  destruct cr as [[[privs role owner schema db0]] status].
  cbn [v1alpha1.ForProvider v1alpha1.Spec].
  unfold deleteQuery; cbn [v1alpha1.Role v1alpha1.Schema v1alpha1.Owner].
  destruct role, schema, owner; cbn [isNil deref bind ret]; try reflexivity.
  destruct (ExecTx (dbDatabase c) h1 ctx _); reflexivity.
Qed.

End Verbs.

(** Delete when the database is there and role or schema is missing: the
    error of the builder, wrapped; the executor is not called. *)
Lemma Delete_invalid (c : external) (ctx : Context) (cr : v1alpha1.DefaultPrivilege)
    (h : list Call) (database : string) :
  v1alpha1.Database (v1alpha1.ForProvider (v1alpha1.Spec cr)) = Some database ->
  ScanBool (db c) h Background (databaseExistsQuery database) = inr true ->
  let gp := v1alpha1.ForProvider (v1alpha1.Spec cr) in
  let after := mkStore (IsDefaultPrivilege (v1alpha1.SetConditions cr xpv1.Deleting))
                       (h ++ [ScanCall OnDb Background (databaseExistsQuery database)]) in
  (v1alpha1.Role gp = None ->
   Delete c ctx (mkStore (IsDefaultPrivilege cr) h) =
   (Returns (Some (WithMessage (errors.New errNoRole) errRevokeDefaultPermsQuery)), after))
  /\ (v1alpha1.Role gp <> None -> v1alpha1.Schema gp = None ->
   Delete c ctx (mkStore (IsDefaultPrivilege cr) h) =
   (Returns (Some (WithMessage (errors.New errNoSchema) errRevokeDefaultPermsQuery)), after)).
Proof.
  intros Hdb Hprobe gp after.
  rewrite (Delete_database_exists c ctx cr h database Hdb Hprobe). subst gp after.
  destruct cr as [[[privs role owner schema db0]] status].
  cbn [v1alpha1.ForProvider v1alpha1.Spec v1alpha1.Role v1alpha1.Schema].
  split.
  - intros ->. reflexivity.
  - intros Hrole ->. destruct role; [reflexivity | now elim Hrole].
Qed.

(** [deleteQuery] does not look at the owner before dereferencing it. *)
Lemma deleteQuery_no_owner (privs : v1alpha1.DefaultPrivilegePrivileges)
    (role schema : string) (database : option string) (ql : list xsql.Query) (st : Store) :
  deleteQuery (v1alpha1.mkParameters privs (Some role) None (Some schema) database) ql st =
  (Panics nilDereference, st).
Proof. reflexivity. Qed.

(* ------------------------------------------------------------------ *)
(** ** The properties of the specification                             *)
(* ------------------------------------------------------------------ *)

(** C1, as stated: the executor does not receive the three unquoted
    statement texts of the scenario. *)
Lemma C1_scenario_texts_differ :
  calls (snd (Create scenarioClient scenarioCtx (start (IsDefaultPrivilege scenario))))
  <> [ExecTxCall OnDbDatabase scenarioCtx (map (fun s => xsql.mkQuery s []) claimedInstall)].
Proof. vm_compute. discriminate. Qed.

(** C1, amended: for the object with role r, owner o, schema s, database d
    and privileges ALL, Create makes exactly one call, [ExecTx] on the
    target-database handle with the context of the verb, and hands it the
    three statements of [scenarioInstall] in that order: the session role
    of the quoted owner, the revoke of everything, the grant of ALL, with
    every identifier between double quotes; Create returns what the
    executor answers, wrapped. *)
Theorem C1_Create_scenario_one_transaction (c : external) (ctx : Context)
    (status : v1alpha1.DefaultPrivilegeStatus) (h : list Call) :
  let cr := v1alpha1.mkDefaultPrivilege (v1alpha1.Spec scenario) status in
  let ql := map (fun s => xsql.mkQuery s []) scenarioInstall in
  Create c ctx (mkStore (IsDefaultPrivilege cr) h) =
  (Returns (managed.mkCreation [],
            errors.Wrap (ExecTx (dbDatabase c) h ctx ql) errCreateDefaultPerms),
   mkStore (IsDefaultPrivilege (v1alpha1.SetConditions cr xpv1.Creating))
           (h ++ [ExecTxCall OnDbDatabase ctx ql])).
Proof.
  intros cr ql.
  exact (Create_complete c ctx "r" "o" "s" (Some "d") ["ALL"] status h
           (fun H : strings.Join ["ALL"] "," = "" => ltac:(discriminate H))).
Qed.

(** C2: Delete on an object with role, schema and database but no owner,
    the database being there, panics on the nil owner inside [deleteQuery]
    instead of returning [errNoOwner]; the executor is not reached. *)
Theorem C2_Delete_owner_absent_panics :
  let cr := object (Some "r") None (Some "s") (Some "d") (Some ["ALL"]) in
  Delete scenarioClient scenarioCtx (start (IsDefaultPrivilege cr)) =
  (Panics nilDereference,
   mkStore (IsDefaultPrivilege (v1alpha1.SetConditions cr xpv1.Deleting))
           [ScanCall OnDb Background (databaseExistsQuery "d")])
  /\ createValidation (v1alpha1.ForProvider (v1alpha1.Spec cr)) = Some errNoOwner.
Proof. split; reflexivity. Qed.

(** C3: when the role and the owner of the object are found, Observe
    follows the existence probe.  Probe false: exists=false, nil error, the
    object as it was.  Probe true: exists=true, upToDate=true,
    lateInitialized=false, nil error, and the Ready condition of the object
    is Available. *)
Theorem C3_Observe_existence_mapping (c : external) (ctx : Context)
    (cr : v1alpha1.DefaultPrivilege) (h : list Call)
    (role owner : string) (roleId ownerId : Z) (found : bool) :
  v1alpha1.Role (v1alpha1.ForProvider (v1alpha1.Spec cr)) = Some role ->
  v1alpha1.Owner (v1alpha1.ForProvider (v1alpha1.Spec cr)) = Some owner ->
  let h1 := (h ++ [ScanCall OnDb Background (roleOIDQuery role)])%list in
  let h2 := (h1 ++ [ScanCall OnDb Background (roleOIDQuery owner)])%list in
  let probe := fst (selectQuery ownerId roleId) in
  ScanInt (db c) h Background (roleOIDQuery role) = inr roleId ->
  ScanInt (db c) h1 Background (roleOIDQuery owner) = inr ownerId ->
  ScanBool (dbDatabase c) h2 ctx probe = inr found ->
  let out := Observe c ctx (mkStore (IsDefaultPrivilege cr) h) in
  (found = false ->
     fst out = Returns (managed.mkObservation false false false, None)
     /\ target (snd out) = IsDefaultPrivilege cr)
  /\ (found = true ->
     fst out = Returns (managed.mkObservation true true false, None)
     /\ target (snd out) = IsDefaultPrivilege (v1alpha1.SetConditions cr xpv1.Available)
     /\ xpv1.GetCondition (conditionsOf (target (snd out))) xpv1.TypeReady
        = Some xpv1.Available).
Proof.
  intros Hrole Howner h1 h2 probe Hr Ho Hp out. subst out.
  rewrite (Observe_resolved c ctx cr h role owner roleId ownerId found Hrole Howner Hr Ho Hp).
  split; intros ->; cbn [fst snd target]; repeat split.
  cbn [conditionsOf v1alpha1.SetConditions v1alpha1.Status v1alpha1.Conditions].
  exact (GetCondition_SetConditions _ xpv1.Available).
Qed.

Lemma C3_Observe_existence_mapping_witness :
  let out := Observe scenarioClient scenarioCtx (start (IsDefaultPrivilege scenario)) in
  (true = false ->
     fst out = Returns (managed.mkObservation false false false, None)
     /\ target (snd out) = IsDefaultPrivilege scenario)
  /\ (true = true ->
     fst out = Returns (managed.mkObservation true true false, None)
     /\ target (snd out)
        = IsDefaultPrivilege (v1alpha1.SetConditions scenario xpv1.Available)
     /\ xpv1.GetCondition (conditionsOf (target (snd out))) xpv1.TypeReady
        = Some xpv1.Available).
Proof.
  apply (C3_Observe_existence_mapping scenarioClient scenarioCtx scenario []
           "r" "o" 1%Z 1%Z true); reflexivity.
Defined.

(** C4: when the object declares a database and the probe for it succeeds
    and answers false, Delete returns nil at once; the probe is the only
    call made, so the executor is not called. *)
Theorem C4_Delete_short_circuit (c : external) (ctx : Context)
    (cr : v1alpha1.DefaultPrivilege) (h : list Call) (database : string) :
  v1alpha1.Database (v1alpha1.ForProvider (v1alpha1.Spec cr)) = Some database ->
  ScanBool (db c) h Background (databaseExistsQuery database) = inr false ->
  let out := Delete c ctx (mkStore (IsDefaultPrivilege cr) h) in
  fst out = Returns None
  /\ calls (snd out) = (h ++ [ScanCall OnDb Background (databaseExistsQuery database)])%list
  /\ executorCalls (calls (snd out)) = executorCalls h.
Proof.
  intros Hdb Hprobe out. subst out. run_verb. rewrite Hdb, Hprobe. cbn [fst snd calls].
  repeat split. unfold executorCalls. rewrite filter_app. cbn. apply app_nil_r.
Qed.

Lemma C4_Delete_short_circuit_witness :
  let out := Delete (mkExternal (constDB 1 false) (constDB 1 false)) scenarioCtx
                    (start (IsDefaultPrivilege scenario)) in
  fst out = Returns None
  /\ calls (snd out) = [ScanCall OnDb Background (databaseExistsQuery "d")]
  /\ executorCalls (calls (snd out)) = [].
Proof.
  apply (C4_Delete_short_circuit (mkExternal (constDB 1 false) (constDB 1 false))
           scenarioCtx scenario [] "d"); reflexivity.
Defined.

(** C5, as stated: Update given a managed resource of another kind, or the
    nil interface, returns a nil error, not the wrong-kind error. *)
Lemma C5_Update_accepts_wrong_kind :
  fst (Update scenarioClient scenarioCtx (start (OtherKind "Role")))
    = Returns (managed.mkUpdate [], None)
  /\ fst (Update scenarioClient scenarioCtx (start NilManaged))
    <> Returns (managed.mkUpdate [], Some (errors.New errNot)).
Proof. split; [reflexivity | discriminate]. Qed.

(** C5, amended: Observe, Create and Delete, given an input that is not a
    DefaultPrivilege, return the wrong-kind error and leave the store as it
    was (no call, no condition set); Update does not look at the kind and
    returns an empty result and a nil error. *)
Theorem C5_wrong_kind_rejected_by_three_verbs (c : external) (ctx : Context) (st : Store) :
  isDefaultPrivilege (target st) = false ->
  Observe c ctx st = (Returns (managed.noObservation, Some (errors.New errNot)), st)
  /\ Create c ctx st = (Returns (managed.mkCreation [], Some (errors.New errNot)), st)
  /\ Delete c ctx st = (Returns (Some (errors.New errNot)), st)
  /\ Update c ctx st = (Returns (managed.mkUpdate [], None), st).
Proof.
  intros Hkind. destruct (wrong_kind c ctx st Hkind) as (Ho & Hc & Hd).
  repeat split; assumption.
Qed.

Lemma C5_wrong_kind_rejected_by_three_verbs_witness :
  let st := start NilManaged in
  Observe scenarioClient scenarioCtx st
    = (Returns (managed.noObservation, Some (errors.New errNot)), st)
  /\ Create scenarioClient scenarioCtx st
    = (Returns (managed.mkCreation [], Some (errors.New errNot)), st)
  /\ Delete scenarioClient scenarioCtx st = (Returns (Some (errors.New errNot)), st)
  /\ Update scenarioClient scenarioCtx st = (Returns (managed.mkUpdate [], None), st).
Proof.
  apply (C5_wrong_kind_rejected_by_three_verbs scenarioClient scenarioCtx (start NilManaged)).
  reflexivity.
Defined.

(** C6: the existence probe is built from the two identities only, and its
    text names the namespace 'public'; two objects that differ in nothing
    but the schema get the same result from Observe, make the same calls
    and end with the same conditions. *)
Theorem C6_Observe_independent_of_schema (c : external) (ctx : Context)
    (cr1 cr2 : v1alpha1.DefaultPrivilege) (h : list Call) :
  sameButSchema cr1 cr2 ->
  let out1 := Observe c ctx (mkStore (IsDefaultPrivilege cr1) h) in
  let out2 := Observe c ctx (mkStore (IsDefaultPrivilege cr2) h) in
  (fst out1 = fst out2
   /\ calls (snd out1) = calls (snd out2)
   /\ conditionsOf (target (snd out1)) = conditionsOf (target (snd out2)))
  /\ (forall ownerID roleID : Z,
        selectQuery ownerID roleID
        = (xsql.mkQuery selectQueryString [xsql.IntParam roleID; xsql.IntParam ownerID], None))
  /\ contains "nspname = 'public'" selectQueryString = true.
Proof.
  intros (Hrole & Howner & _ & _ & Hstatus) out1 out2. split.
  - exact (Observe_reads_role_owner c ctx cr1 cr2 h Hrole Howner Hstatus).
  - split; [intros; reflexivity | vm_compute; reflexivity].
Qed.

Lemma C6_Observe_independent_of_schema_witness :
  let cr2 := object (Some "r") (Some "o") (Some "audit") (Some "d") (Some ["ALL"]) in
  let out1 := Observe scenarioClient scenarioCtx (start (IsDefaultPrivilege scenario)) in
  let out2 := Observe scenarioClient scenarioCtx (start (IsDefaultPrivilege cr2)) in
  (fst out1 = fst out2
   /\ calls (snd out1) = calls (snd out2)
   /\ conditionsOf (target (snd out1)) = conditionsOf (target (snd out2)))
  /\ (forall ownerID roleID : Z,
        selectQuery ownerID roleID
        = (xsql.mkQuery selectQueryString [xsql.IntParam roleID; xsql.IntParam ownerID], None))
  /\ contains "nspname = 'public'" selectQueryString = true.
Proof.
  apply (C6_Observe_independent_of_schema scenarioClient scenarioCtx scenario
           (object (Some "r") (Some "o") (Some "audit") (Some "d") (Some ["ALL"])) []).
  repeat split; reflexivity.
Defined.

(** C7, as stated: Observe on an object with neither schema nor privileges
    is not a validation failure; the three queries are made and the object
    is reported as existing and up to date. *)
Lemma C7_Observe_without_schema_and_privileges :
  let cr := object (Some "r") (Some "o") None (Some "d") None in
  let out := Observe scenarioClient scenarioCtx (start (IsDefaultPrivilege cr)) in
  fst out = Returns (managed.mkObservation true true false, None)
  /\ length (calls (snd out)) = 3.
Proof. split; reflexivity. Qed.

(** C7, amended: the only field Observe validates is the role.  With the
    role absent it returns [errNoRole] without making a call or touching the
    object; the schema and the privileges are not read, so that putting
    others in their place, or none, changes nothing in the result, the
    calls and the conditions. *)
Theorem C7_Observe_validates_role_only (c : external) (ctx : Context)
    (cr : v1alpha1.DefaultPrivilege) (h : list Call) :
  (v1alpha1.Role (v1alpha1.ForProvider (v1alpha1.Spec cr)) = None ->
   Observe c ctx (mkStore (IsDefaultPrivilege cr) h) =
   (Returns (managed.noObservation, Some (errors.New errNoRole)),
    mkStore (IsDefaultPrivilege cr) h))
  /\ (forall (schema : option string) (privileges : v1alpha1.DefaultPrivilegePrivileges),
        let out := Observe c ctx (mkStore (IsDefaultPrivilege cr) h) in
        let out' := Observe c ctx
                      (mkStore (IsDefaultPrivilege (withSchemaPrivileges schema privileges cr)) h) in
        fst out' = fst out
        /\ calls (snd out') = calls (snd out)
        /\ conditionsOf (target (snd out')) = conditionsOf (target (snd out))).
Proof.
  split.
  - apply Observe_no_role.
  - intros schema privileges. apply Observe_reads_role_owner; reflexivity.
Qed.

Lemma C7_Observe_validates_role_only_witness :
  let cr := object None (Some "o") (Some "s") (Some "d") (Some ["ALL"]) in
  Observe scenarioClient scenarioCtx (start (IsDefaultPrivilege cr)) =
  (Returns (managed.noObservation, Some (errors.New errNoRole)),
   start (IsDefaultPrivilege cr)).
Proof.
  apply (proj1 (C7_Observe_validates_role_only scenarioClient scenarioCtx
                  (object None (Some "o") (Some "s") (Some "d") (Some ["ALL"])) [])).
  reflexivity.
Defined.

(** C8: Delete on an object whose database is unset dereferences the nil
    pointer: it panics after setting the condition Deleting and before any
    call, whereas the connector falls back on the default database. *)
Theorem C8_Delete_database_unset_panics :
  let cr := object (Some "r") (Some "o") (Some "s") None (Some ["ALL"]) in
  Delete scenarioClient scenarioCtx (start (IsDefaultPrivilege cr)) =
  (Panics nilDereference,
   mkStore (IsDefaultPrivilege (v1alpha1.SetConditions cr xpv1.Deleting)) [])
  /\ crateDb "postgres" cr = "postgres".
Proof. split; reflexivity. Qed.

(** C9: Update returns an empty result and a nil error for every input, and
    the store after it is the store before it: no call is made and the
    object is not touched. *)
Theorem C9_Update_noop (c : external) (ctx : Context) (st : Store) :
  Update c ctx st = (Returns (managed.mkUpdate [], None), st).
Proof. reflexivity. Qed.

(** C10: under a cancellable context, the identity look-ups of Observe and
    the database probe of Delete are made with the background context; on
    handles that fail every call outside the background context they
    succeed, and only the last call of each verb sees the cancellation. *)
Theorem C10_probes_use_background_context :
  let c := mkExternal (cancelingDB 1 true) (cancelingDB 1 true) in
  let observed := Observe c scenarioCtx (start (IsDefaultPrivilege scenario)) in
  let deleted := Delete c scenarioCtx (start (IsDefaultPrivilege scenario)) in
  map callContext (calls (snd observed)) = [Background; Background; scenarioCtx]
  /\ fst observed
     = Returns (managed.noObservation, Some (WithMessage canceled errSelectDefaultPerms))
  /\ map callContext (calls (snd deleted)) = [Background; scenarioCtx]
  /\ fst deleted = Returns (Some (WithMessage canceled errRevokeDefaultPerms))
  /\ scenarioCtx <> Background.
Proof. repeat split; try reflexivity. discriminate. Qed.

(* ------------------------------------------------------------------ *)
(** ** Observe: the error paths, the panic, what it never does         *)
(* ------------------------------------------------------------------ *)

(** X1: when the look-up of the role's identity fails, Observe returns the
    zero observation and the handle's error, first annotated with the role
    name and then wrapped as a role-identity error; that look-up is the only
    call, the object is untouched, and the owner is not looked at (it may be
    nil). *)
Theorem Observe_role_lookup_fails (c : external) (ctx : Context)
    (cr : v1alpha1.DefaultPrivilege) (h : list Call) (role : string) (err : error) :
  v1alpha1.Role (v1alpha1.ForProvider (v1alpha1.Spec cr)) = Some role ->
  ScanInt (db c) h Background (roleOIDQuery role) = inl err ->
  Observe c ctx (mkStore (IsDefaultPrivilege cr) h) =
  (Returns (managed.noObservation,
            Some (WithMessage (WrapError ("could not find oid for role " ++ role ++ ": "
                                          ++ Error err) err)
                              errSelectRoleId)),
   mkStore (IsDefaultPrivilege cr) (h ++ [ScanCall OnDb Background (roleOIDQuery role)])).
Proof.
  intros Hrole Hr. run_verb. rewrite Hrole, Hr. reflexivity.
Qed.

Lemma Observe_role_lookup_fails_witness :
  let cr := object (Some "r") None (Some "s") (Some "d") (Some ["ALL"]) in
  Observe (mkExternal (failingDB boom) (failingDB boom)) scenarioCtx
          (start (IsDefaultPrivilege cr)) =
  (Returns (managed.noObservation,
            Some (WithMessage (WrapError ("could not find oid for role " ++ "r" ++ ": "
                                          ++ Error boom) boom)
                              errSelectRoleId)),
   mkStore (IsDefaultPrivilege cr) ([] ++ [ScanCall OnDb Background (roleOIDQuery "r")])).
Proof.
  apply (Observe_role_lookup_fails (mkExternal (failingDB boom) (failingDB boom)) scenarioCtx
           (object (Some "r") None (Some "s") (Some "d") (Some ["ALL"])) [] "r" boom);
    reflexivity.
Defined.

(** X2: when the role is found and the look-up of the owner's identity
    fails, Observe returns the zero observation and that error, annotated
    with the owner name and wrapped as a role-identity error; the two
    look-ups are the only calls and the existence probe is not made. *)
Theorem Observe_owner_lookup_fails (c : external) (ctx : Context)
    (cr : v1alpha1.DefaultPrivilege) (h : list Call) (role owner : string)
    (roleId : Z) (err : error) :
  v1alpha1.Role (v1alpha1.ForProvider (v1alpha1.Spec cr)) = Some role ->
  v1alpha1.Owner (v1alpha1.ForProvider (v1alpha1.Spec cr)) = Some owner ->
  let h1 := (h ++ [ScanCall OnDb Background (roleOIDQuery role)])%list in
  ScanInt (db c) h Background (roleOIDQuery role) = inr roleId ->
  ScanInt (db c) h1 Background (roleOIDQuery owner) = inl err ->
  Observe c ctx (mkStore (IsDefaultPrivilege cr) h) =
  (Returns (managed.noObservation,
            Some (WithMessage (WrapError ("could not find oid for role " ++ owner ++ ": "
                                          ++ Error err) err)
                              errSelectRoleId)),
   mkStore (IsDefaultPrivilege cr) (h1 ++ [ScanCall OnDb Background (roleOIDQuery owner)])).
Proof.
  intros Hrole Howner h1 Hr Ho. run_verb. rewrite Hrole, Hr, Howner. fold h1.
  rewrite Ho. reflexivity.
Qed.

(** X3: when both identities are found and the existence probe fails,
    Observe returns the zero observation and the handle's error wrapped as
    a selection error; the object is untouched. *)
Theorem Observe_probe_fails (c : external) (ctx : Context)
    (cr : v1alpha1.DefaultPrivilege) (h : list Call) (role owner : string)
    (roleId ownerId : Z) (err : error) :
  v1alpha1.Role (v1alpha1.ForProvider (v1alpha1.Spec cr)) = Some role ->
  v1alpha1.Owner (v1alpha1.ForProvider (v1alpha1.Spec cr)) = Some owner ->
  let h1 := (h ++ [ScanCall OnDb Background (roleOIDQuery role)])%list in
  let h2 := (h1 ++ [ScanCall OnDb Background (roleOIDQuery owner)])%list in
  let probe := fst (selectQuery ownerId roleId) in
  ScanInt (db c) h Background (roleOIDQuery role) = inr roleId ->
  ScanInt (db c) h1 Background (roleOIDQuery owner) = inr ownerId ->
  ScanBool (dbDatabase c) h2 ctx probe = inl err ->
  Observe c ctx (mkStore (IsDefaultPrivilege cr) h) =
  (Returns (managed.noObservation, Some (WithMessage err errSelectDefaultPerms)),
   mkStore (IsDefaultPrivilege cr) (h2 ++ [ScanCall OnDbDatabase ctx probe])).
Proof.
  intros Hrole Howner h1 h2 probe Hr Ho Hp. run_verb. rewrite Hrole, Hr, Howner. fold h1.
  rewrite Ho. fold h2. change (xsql.mkQuery selectQueryString _) with probe.
  rewrite Hp. reflexivity.
Qed.

Lemma Observe_owner_lookup_fails_witness :
  let c := mkExternal (catalogDB [("r", 7%Z)] (inr true) None) (constDB 0 true) in
  Observe c scenarioCtx (start (IsDefaultPrivilege scenario)) =
  (Returns (managed.noObservation,
            Some (WithMessage (WrapError ("could not find oid for role " ++ "o" ++ ": "
                                          ++ Error noRows) noRows)
                              errSelectRoleId)),
   mkStore (IsDefaultPrivilege scenario)
           (([] ++ [ScanCall OnDb Background (roleOIDQuery "r")])
               ++ [ScanCall OnDb Background (roleOIDQuery "o")])).
Proof.
  apply (Observe_owner_lookup_fails
           (mkExternal (catalogDB [("r", 7%Z)] (inr true) None) (constDB 0 true))
           scenarioCtx scenario [] "r" "o" 7%Z noRows); reflexivity.
Defined.

Lemma Observe_probe_fails_witness :
  let c := mkExternal (catalogDB [("r", 7%Z); ("o", 8%Z)] (inr true) None)
                      (failingDB boom) in
  Observe c scenarioCtx (start (IsDefaultPrivilege scenario)) =
  (Returns (managed.noObservation, Some (WithMessage boom errSelectDefaultPerms)),
   mkStore (IsDefaultPrivilege scenario)
           ((([] ++ [ScanCall OnDb Background (roleOIDQuery "r")])
                ++ [ScanCall OnDb Background (roleOIDQuery "o")])
               ++ [ScanCall OnDbDatabase scenarioCtx (fst (selectQuery 8%Z 7%Z))])).
Proof.
  apply (Observe_probe_fails
           (mkExternal (catalogDB [("r", 7%Z); ("o", 8%Z)] (inr true) None) (failingDB boom))
           scenarioCtx scenario [] "r" "o" 7%Z 8%Z boom); reflexivity.
Defined.

(** The shapes of the store after Observe. *)
Lemma Observe_store (c : external) (ctx : Context) (st : Store) :
  exists new,
    calls (snd (Observe c ctx st)) = (calls st ++ new)%list
    /\ (length new <= 3)%nat
    /\ executorCalls new = []
    /\ (target (snd (Observe c ctx st)) = target st
        \/ exists cr, target st = IsDefaultPrivilege cr
                      /\ target (snd (Observe c ctx st))
                         = IsDefaultPrivilege (v1alpha1.SetConditions cr xpv1.Available)).
Proof.
  destruct st as [mg h]. destruct mg as [|cr|kind];
    try (exists []; cbn; rewrite app_nil_r; repeat split; auto with arith; now left).
  destruct cr as [[[privs role owner schema database]] status]. run_verb.
  cbn [v1alpha1.Role v1alpha1.Owner v1alpha1.ForProvider v1alpha1.Spec].
  destruct role as [role|];
    [|exists []; cbn; rewrite app_nil_r; repeat split; auto with arith; now left].
  destruct (ScanInt (db c) h Background (roleOIDQuery role)) as [err|roleId];
    [eexists [_]; cbn; repeat split; auto with arith; now left|].
  destruct owner as [owner|];
    [|eexists [_]; cbn; repeat split; auto with arith; now left].
  destruct (ScanInt (db c) _ Background (roleOIDQuery owner)) as [err|ownerId];
    [eexists [_; _]; cbn; rewrite <- app_assoc; repeat split; auto with arith; now left|].
  destruct (ScanBool (dbDatabase c) _ ctx _) as [err|[|]];
    eexists [_; _; _]; cbn; rewrite <- !app_assoc; repeat split; auto with arith;
    try (now left).
  right. eexists. split; reflexivity.
Qed.

(** X4: Observe only reads.  Whatever the object and the handles, it adds
    at most three calls to those made before, none of them to the
    transactional executor; it leaves the specification of the object as it
    was, and every condition whose type is not Ready. *)
Theorem Observe_read_only (c : external) (ctx : Context) (st : Store) :
  let st' := snd (Observe c ctx st) in
  (exists new, calls st' = (calls st ++ new)%list
               /\ (length new <= 3)%nat /\ executorCalls new = [])
  /\ executorCalls (calls st') = executorCalls (calls st)
  /\ specOf (target st') = specOf (target st)
  /\ (forall ct, ct <> xpv1.TypeReady ->
        xpv1.GetCondition (conditionsOf (target st')) ct
        = xpv1.GetCondition (conditionsOf (target st)) ct).
Proof.
  intros st'. subst st'.
  destruct (Observe_store c ctx st) as (new & Hcalls & Hlen & Hexec & Htarget).
  split; [exists new; auto|]. split.
  - rewrite Hcalls. unfold executorCalls in *. rewrite filter_app, Hexec. apply app_nil_r.
  - destruct Htarget as [-> | (cr & Hcr & ->)]; [split; auto|].
    rewrite Hcr. split; [reflexivity|]. intros ct Hct.
    cbn [conditionsOf v1alpha1.SetConditions v1alpha1.Status v1alpha1.Conditions].
    apply GetCondition_SetConditions_other. exact Hct.
Qed.

(** X5: Observe panics exactly when the object has a role whose identity is
    found and no owner: the nil owner is dereferenced after the first
    look-up. *)
Theorem Observe_panics_iff (c : external) (ctx : Context)
    (cr : v1alpha1.DefaultPrivilege) (h : list Call) :
  panics (fst (Observe c ctx (mkStore (IsDefaultPrivilege cr) h))) = true
  <-> (exists role roleId,
         v1alpha1.Role (v1alpha1.ForProvider (v1alpha1.Spec cr)) = Some role
         /\ ScanInt (db c) h Background (roleOIDQuery role) = inr roleId
         /\ v1alpha1.Owner (v1alpha1.ForProvider (v1alpha1.Spec cr)) = None).
Proof.
  destruct cr as [[[privs role owner schema database]] status]. run_verb.
  cbn [v1alpha1.Role v1alpha1.Owner v1alpha1.ForProvider v1alpha1.Spec].
  destruct role as [role|]; cbn [panics fst].
  2:{ split; [discriminate | intros (r & i & [=] & _)]. }
  destruct (ScanInt (db c) h Background (roleOIDQuery role)) as [err|roleId] eqn:Hr;
    cbn [panics fst].
  { split; [discriminate | intros (r & i & [= <-] & Hi & _); congruence]. }
  destruct owner as [owner|]; cbn [panics fst].
  2:{ split; [intros _; now exists role, roleId | reflexivity]. }
  destruct (ScanInt (db c) _ Background (roleOIDQuery owner)) as [err|ownerId];
    cbn [panics fst].
  { split; [discriminate | intros (r & i & _ & _ & [=])]. }
  destruct (ScanBool (dbDatabase c) _ ctx _) as [err|[|]]; cbn [panics fst];
    (split; [discriminate | intros (r & i & _ & _ & [=])]).
Qed.

(* ------------------------------------------------------------------ *)
(** ** Create                                                           *)
(* ------------------------------------------------------------------ *)

(** The shapes of the outcome of Create. *)
Lemma Create_store (c : external) (ctx : Context) (st : Store) :
  panics (fst (Create c ctx st)) = false
  /\ target (snd (Create c ctx st)) = marked xpv1.Creating (target st)
  /\ (calls (snd (Create c ctx st)) = calls st
      \/ exists ql, calls (snd (Create c ctx st))
                    = (calls st ++ [ExecTxCall OnDbDatabase ctx ql])%list).
Proof.
  destruct st as [mg h]. destruct mg as [|cr|kind]; try (cbn; repeat split; now left).
  run_verb. cbn [v1alpha1.SetConditions v1alpha1.Spec marked].
  destruct (createQueries_total (v1alpha1.ForProvider (v1alpha1.Spec cr)) []
              (mkStore (IsDefaultPrivilege (v1alpha1.SetConditions cr xpv1.Creating)) h))
    as (ql & err & Hcq & _).
  cbn [v1alpha1.SetConditions v1alpha1.Spec] in Hcq. rewrite Hcq.
  destruct err as [err|]; [cbn; repeat split; now left|].
  destruct (ExecTx (dbDatabase c) h ctx ql); cbn; repeat split; right; now exists ql.
Qed.

(** X6: Create never panics; it makes at most one call, [ExecTx] on the
    target-database handle with the context of the verb, and never a Scan
    and never a call on the identity handle; and whatever it returns, an
    object of the right kind is left with the condition Creating set, its
    specification and its conditions of other types as they were. *)
Theorem Create_never_panics (c : external) (ctx : Context) (st : Store) :
  let out := Create c ctx st in
  panics (fst out) = false
  /\ (calls (snd out) = calls st
      \/ exists ql, calls (snd out) = (calls st ++ [ExecTxCall OnDbDatabase ctx ql])%list)
  /\ target (snd out) = marked xpv1.Creating (target st)
  /\ specOf (target (snd out)) = specOf (target st)
  /\ (isDefaultPrivilege (target st) = true ->
      xpv1.GetCondition (conditionsOf (target (snd out))) xpv1.TypeReady = Some xpv1.Creating)
  /\ (forall ct, ct <> xpv1.TypeReady ->
        xpv1.GetCondition (conditionsOf (target (snd out))) ct
        = xpv1.GetCondition (conditionsOf (target st)) ct).
Proof.
  intros out. subst out. destruct (Create_store c ctx st) as (Hp & Ht & Hc).
  rewrite Ht. repeat split; auto.
  - now destruct (target st).
  - destruct (target st) as [|cr|kind]; try discriminate. intros _.
    exact (GetCondition_SetConditions _ xpv1.Creating).
  - intros ct Hct. destruct (target st) as [|cr|kind]; try reflexivity.
    cbn [marked conditionsOf v1alpha1.SetConditions v1alpha1.Status v1alpha1.Conditions].
    now apply GetCondition_SetConditions_other.
Qed.

(** X7: for every object with a role, an owner, a schema and privileges
    whose comma-separated list is not empty, Create makes exactly one call:
    [ExecTx] on the target-database handle, with the context of the verb and
    three statements in this order: the session role of the quoted owner,
    the revoke of all table default privileges from the quoted role in the
    quoted schema, the grant of the listed privileges.  Create returns nil
    when the executor does, and otherwise the executor's error wrapped. *)
Theorem Create_install_sequence (c : external) (ctx : Context)
    (role owner schema : string) (database : option string) (privileges : list string)
    (status : v1alpha1.DefaultPrivilegeStatus) (h : list Call) :
  strings.Join privileges "," <> "" ->
  let cr := v1alpha1.mkDefaultPrivilege
              (v1alpha1.mkSpec (v1alpha1.mkParameters (Some privileges) (Some role)
                                  (Some owner) (Some schema) database)) status in
  let ql :=
    [ xsql.mkQuery ("SET ROLE " ++ pq.QuoteIdentifier owner ++ " ") [];
      xsql.mkQuery ("ALTER DEFAULT PRIVILEGES FOR ROLE " ++ pq.QuoteIdentifier owner
                    ++ " IN SCHEMA " ++ pq.QuoteIdentifier schema
                    ++ " REVOKE ALL ON TABLES FROM " ++ pq.QuoteIdentifier role) [];
      xsql.mkQuery ("ALTER DEFAULT PRIVILEGES FOR ROLE " ++ pq.QuoteIdentifier owner
                    ++ " IN SCHEMA " ++ pq.QuoteIdentifier schema
                    ++ "  GRANT  " ++ strings.Join privileges "," ++ " ON TABLES TO "
                    ++ pq.QuoteIdentifier role) [] ] in
  let out := Create c ctx (mkStore (IsDefaultPrivilege cr) h) in
  calls (snd out) = (h ++ [ExecTxCall OnDbDatabase ctx ql])%list
  /\ fst out = Returns (managed.mkCreation [],
                        match ExecTx (dbDatabase c) h ctx ql with
                        | None => None
                        | Some err => Some (WithMessage err errCreateDefaultPerms)
                        end).
Proof.
  intros Hp cr ql out. subst out cr.
  rewrite (Create_complete c ctx role owner schema database privileges status h Hp).
  cbn [fst snd calls]. fold ql. split; [reflexivity|].
  now destruct (ExecTx (dbDatabase c) h ctx ql).
Qed.

Lemma Create_install_sequence_witness :
  let c := mkExternal (constDB 0 false) (failingDB boom) in
  let cr := object (Some "app") (Some "admin") (Some "public") None
                   (Some ["SELECT"; "INSERT"]) in
  let ql :=
    [ xsql.mkQuery ("SET ROLE " ++ quoted "admin" ++ " ") [];
      xsql.mkQuery ("ALTER DEFAULT PRIVILEGES FOR ROLE " ++ quoted "admin"
                    ++ " IN SCHEMA " ++ quoted "public"
                    ++ " REVOKE ALL ON TABLES FROM " ++ quoted "app") [];
      xsql.mkQuery ("ALTER DEFAULT PRIVILEGES FOR ROLE " ++ quoted "admin"
                    ++ " IN SCHEMA " ++ quoted "public"
                    ++ "  GRANT  SELECT,INSERT ON TABLES TO " ++ quoted "app") [] ] in
  let out := Create c scenarioCtx (start (IsDefaultPrivilege cr)) in
  calls (snd out) = [ExecTxCall OnDbDatabase scenarioCtx ql]
  /\ fst out = Returns (managed.mkCreation [], Some (WithMessage boom errCreateDefaultPerms)).
Proof.
  apply (Create_install_sequence (mkExternal (constDB 0 false) (failingDB boom)) scenarioCtx
           "app" "admin" "public" None ["SELECT"; "INSERT"] (v1alpha1.mkStatus []) []).
  discriminate.
Defined.

Lemma append_comma_not_empty (x rest : string) : x ++ "," ++ rest <> "".
Proof. destruct x; discriminate. Qed.

Lemma Join_empty (l : list string) :
  strings.Join l "," = "" <-> l = [] \/ l = [""].
Proof.
  unfold strings.Join. destruct l as [|x [|y rest]]; cbn.
  - split; auto.
  - split; [intros ->; now right | intros [H|[= ->]]; [discriminate | reflexivity]].
  - split; [intros H; now apply append_comma_not_empty in H | intros [H|H]; discriminate].
Qed.

(** X8: on an object with role, owner and schema, Create answers with the
    privileges-not-passed error exactly when the privilege list is empty or
    holds the empty privilege only (its comma-separated text is empty); it
    then makes no call. *)
Theorem Create_empty_privileges (c : external) (ctx : Context)
    (role owner schema : string) (database : option string) (privileges : list string)
    (status : v1alpha1.DefaultPrivilegeStatus) (h : list Call) :
  let cr := v1alpha1.mkDefaultPrivilege
              (v1alpha1.mkSpec (v1alpha1.mkParameters (Some privileges) (Some role)
                                  (Some owner) (Some schema) database)) status in
  let out := Create c ctx (mkStore (IsDefaultPrivilege cr) h) in
  (fst out = Returns (managed.mkCreation [],
                      Some (WithMessage (errors.New errNoPrivileges) errCreateDefaultPermsQuery))
   <-> privileges = [] \/ privileges = [""])
  /\ (privileges = [] \/ privileges = [""] -> calls (snd out) = h).
Proof.
  intros cr out. subst out. rewrite <- Join_empty.
  destruct (String.eqb_spec (strings.Join privileges ",") "") as [Hj|Hj].
  - assert (Hv : createValidation (v1alpha1.ForProvider (v1alpha1.Spec cr))
                 = Some errNoPrivileges).
    { cbn. unfold createValidation. cbn. now rewrite Hj. }
    rewrite (Create_invalid c ctx cr h errNoPrivileges Hv). cbn. repeat split; auto.
  - subst cr.
    rewrite (Create_complete c ctx role owner schema database privileges status h Hj).
    cbn [fst snd calls]. split; [|intros H; now elim Hj].
    split; [|intros H; now elim Hj].
    destruct (ExecTx (dbDatabase c) h ctx _); cbn; intros [=].
Qed.

(** [createQueries] does not read or write the store. *)
Lemma createQueries_pure (gp : v1alpha1.DefaultPrivilegeParameters) (ql : list xsql.Query) :
  exists r, forall st, createQueries gp ql st = (Returns r, st).
Proof.
  destruct (createValidation gp) as [msg|] eqn:Hv.
  - exists (ql, Some (errors.New msg)). intros st. now apply createQueries_invalid.
  - destruct gp as [[l|] [role|] [owner|] [schema|] database];
      unfold createValidation in Hv; cbn in Hv; try discriminate.
    destruct (String.eqb_spec (strings.Join l ",") ""); [discriminate|].
    eexists. intros st. now apply createQueries_complete.
Qed.

Lemma Create_outcome (c : external) (ctx : Context) (cr : v1alpha1.DefaultPrivilege)
    (h : list Call) (r : list xsql.Query * option error) :
  (forall st, createQueries (v1alpha1.ForProvider (v1alpha1.Spec cr)) [] st = (Returns r, st)) ->
  Create c ctx (mkStore (IsDefaultPrivilege cr) h) =
  match r with
  | (_, Some err) =>
      (Returns (managed.mkCreation [], Some (WithMessage err errCreateDefaultPermsQuery)),
       mkStore (IsDefaultPrivilege (v1alpha1.SetConditions cr xpv1.Creating)) h)
  | (ql, None) =>
      (Returns (managed.mkCreation [],
                errors.Wrap (ExecTx (dbDatabase c) h ctx ql) errCreateDefaultPerms),
       mkStore (IsDefaultPrivilege (v1alpha1.SetConditions cr xpv1.Creating))
               (h ++ [ExecTxCall OnDbDatabase ctx ql]))
  end.
Proof.
  intros Hr. run_verb. cbn [v1alpha1.SetConditions v1alpha1.Spec]. rewrite Hr.
  destruct r as [ql [err|]]; [reflexivity|].
  destruct (ExecTx (dbDatabase c) h ctx ql); reflexivity.
Qed.

(** X9: running Create again on what Create left behind hands the executor
    the same statements again and leaves the object as the first run left
    it. *)
Theorem Create_twice (c : external) (ctx : Context) (st : Store) :
  let st1 := snd (Create c ctx st) in
  let st2 := snd (Create c ctx st1) in
  target st2 = target st1
  /\ exists new, calls st1 = (calls st ++ new)%list /\ calls st2 = (calls st1 ++ new)%list.
Proof.
  intros st1 st2. subst st1 st2.
  destruct st as [mg h]. destruct mg as [|cr|kind];
    try (cbn; split; [reflexivity | exists []; now rewrite !app_nil_r]).
  destruct (createQueries_pure (v1alpha1.ForProvider (v1alpha1.Spec cr)) []) as [r Hr].
  rewrite (Create_outcome c ctx cr h r Hr).
  assert (Hidem : v1alpha1.SetConditions (v1alpha1.SetConditions cr xpv1.Creating)
                                         xpv1.Creating
                  = v1alpha1.SetConditions cr xpv1.Creating).
  { unfold v1alpha1.SetConditions. cbn. now rewrite SetConditions_idempotent. }
  destruct r as [ql [err|]]; cbn [snd target calls].
  - rewrite (Create_outcome c ctx (v1alpha1.SetConditions cr xpv1.Creating) h
               (ql, Some err) Hr).
    cbn [snd target calls]. rewrite Hidem.
    split; [reflexivity | exists []; now rewrite !app_nil_r].
  - rewrite (Create_outcome c ctx (v1alpha1.SetConditions cr xpv1.Creating) _
               (ql, None) Hr).
    cbn [snd target calls]. rewrite Hidem.
    split; [reflexivity | eexists; split; reflexivity].
Qed.

(* ------------------------------------------------------------------ *)
(** ** Delete                                                           *)
(* ------------------------------------------------------------------ *)

(** X10: for every object with a database, a role, an owner and a schema,
    whatever its privileges, when the probe finds the database Delete makes
    two calls: the probe, then [ExecTx] on the target-database handle with
    the context of the verb and two statements, the session role of the
    quoted owner and the revoke of all table default privileges from the
    quoted role in the quoted schema.  Delete returns nil when the executor
    does, and otherwise the executor's error wrapped. *)
Theorem Delete_revoke_sequence (c : external) (ctx : Context)
    (role owner schema database : string) (privileges : v1alpha1.DefaultPrivilegePrivileges)
    (status : v1alpha1.DefaultPrivilegeStatus) (h : list Call) :
  ScanBool (db c) h Background (databaseExistsQuery database) = inr true ->
  let cr := v1alpha1.mkDefaultPrivilege
              (v1alpha1.mkSpec (v1alpha1.mkParameters privileges (Some role) (Some owner)
                                  (Some schema) (Some database))) status in
  let h1 := (h ++ [ScanCall OnDb Background (databaseExistsQuery database)])%list in
  let ql :=
    [ xsql.mkQuery ("SET ROLE " ++ pq.QuoteIdentifier owner ++ " ") [];
      xsql.mkQuery ("ALTER DEFAULT PRIVILEGES FOR ROLE " ++ pq.QuoteIdentifier owner
                    ++ "  IN SCHEMA " ++ pq.QuoteIdentifier schema
                    ++ " REVOKE ALL ON TABLES FROM " ++ pq.QuoteIdentifier role) [] ] in
  let out := Delete c ctx (mkStore (IsDefaultPrivilege cr) h) in
  calls (snd out) = (h1 ++ [ExecTxCall OnDbDatabase ctx ql])%list
  /\ fst out = Returns (match ExecTx (dbDatabase c) h1 ctx ql with
                        | None => None
                        | Some err => Some (WithMessage err errRevokeDefaultPerms)
                        end).
Proof.
  intros Hprobe cr h1 ql out. subst out.
  rewrite (Delete_database_exists c ctx cr h database eq_refl Hprobe). subst cr.
  cbn [v1alpha1.ForProvider v1alpha1.Spec]. rewrite deleteQuery_complete.
  cbn [app fst snd calls]. fold h1 ql. split; [reflexivity|].
  now destruct (ExecTx (dbDatabase c) h1 ctx ql).
Qed.

Lemma Delete_revoke_sequence_witness :
  let c := mkExternal (constDB 0 true) (failingDB boom) in
  let cr := object (Some "app") (Some "admin") (Some "public") (Some "shop") None in
  let ql :=
    [ xsql.mkQuery ("SET ROLE " ++ quoted "admin" ++ " ") [];
      xsql.mkQuery ("ALTER DEFAULT PRIVILEGES FOR ROLE " ++ quoted "admin"
                    ++ "  IN SCHEMA " ++ quoted "public"
                    ++ " REVOKE ALL ON TABLES FROM " ++ quoted "app") [] ] in
  let out := Delete c scenarioCtx (start (IsDefaultPrivilege cr)) in
  calls (snd out) = [ScanCall OnDb Background (databaseExistsQuery "shop");
                     ExecTxCall OnDbDatabase scenarioCtx ql]
  /\ fst out = Returns (Some (WithMessage boom errRevokeDefaultPerms)).
Proof.
  apply (Delete_revoke_sequence (mkExternal (constDB 0 true) (failingDB boom)) scenarioCtx
           "app" "admin" "public" "shop" None (v1alpha1.mkStatus []) []).
  reflexivity.
Defined.

(** X11: when the database probe itself fails, Delete returns the handle's
    error, annotated with the database name and wrapped as a revoke error;
    the probe is the only call, so nothing is revoked. *)
Theorem Delete_probe_error (c : external) (ctx : Context)
    (cr : v1alpha1.DefaultPrivilege) (h : list Call) (database : string) (err : error) :
  v1alpha1.Database (v1alpha1.ForProvider (v1alpha1.Spec cr)) = Some database ->
  ScanBool (db c) h Background (databaseExistsQuery database) = inl err ->
  let out := Delete c ctx (mkStore (IsDefaultPrivilege cr) h) in
  fst out = Returns (Some (WithMessage
                             (WrapError ("could not find database " ++ database ++ ": "
                                         ++ Error err) err)
                             errRevokeDefaultPerms))
  /\ calls (snd out) = (h ++ [ScanCall OnDb Background (databaseExistsQuery database)])%list
  /\ executorCalls (calls (snd out)) = executorCalls h.
Proof.
  intros Hdb Hprobe out. subst out.
  rewrite (Delete_probe_fails c ctx cr h database err Hdb Hprobe). cbn [fst snd calls].
  repeat split. unfold executorCalls. rewrite filter_app. cbn. apply app_nil_r.
Qed.

Lemma Delete_probe_error_witness :
  let out := Delete (mkExternal (failingDB boom) (constDB 0 true)) scenarioCtx
                    (start (IsDefaultPrivilege scenario)) in
  fst out = Returns (Some (WithMessage
                             (WrapError ("could not find database " ++ "d" ++ ": "
                                         ++ Error boom) boom)
                             errRevokeDefaultPerms))
  /\ calls (snd out) = ([] ++ [ScanCall OnDb Background (databaseExistsQuery "d")])%list
  /\ executorCalls (calls (snd out)) = executorCalls [].
Proof.
  apply (Delete_probe_error (mkExternal (failingDB boom) (constDB 0 true)) scenarioCtx
           scenario [] "d" boom); reflexivity.
Defined.

(** X12: Delete validates after probing.  When the probe finds the database
    and the object has no role, or a role but no schema, Delete returns the
    corresponding validation error wrapped as a query-building error; the
    probe is the only call and the executor is not called. *)
Theorem Delete_validates_role_and_schema (c : external) (ctx : Context)
    (cr : v1alpha1.DefaultPrivilege) (h : list Call) (database : string) (msg : string) :
  v1alpha1.Database (v1alpha1.ForProvider (v1alpha1.Spec cr)) = Some database ->
  ScanBool (db c) h Background (databaseExistsQuery database) = inr true ->
  match v1alpha1.Role (v1alpha1.ForProvider (v1alpha1.Spec cr)),
        v1alpha1.Schema (v1alpha1.ForProvider (v1alpha1.Spec cr)) with
  | None, _ => msg = errNoRole
  | Some _, None => msg = errNoSchema
  | Some _, Some _ => False
  end ->
  let out := Delete c ctx (mkStore (IsDefaultPrivilege cr) h) in
  fst out = Returns (Some (WithMessage (errors.New msg) errRevokeDefaultPermsQuery))
  /\ calls (snd out) = (h ++ [ScanCall OnDb Background (databaseExistsQuery database)])%list.
Proof.
  intros Hdb Hprobe Hmsg out. subst out.
  destruct (Delete_invalid c ctx cr h database Hdb Hprobe) as [Hrole Hschema].
  destruct (v1alpha1.Role (v1alpha1.ForProvider (v1alpha1.Spec cr))) as [role|] eqn:Er.
  - destruct (v1alpha1.Schema (v1alpha1.ForProvider (v1alpha1.Spec cr))) as [schema|] eqn:Es;
      [contradiction|]. subst msg.
    rewrite Hschema by (congruence || reflexivity). split; reflexivity.
  - subst msg. rewrite Hrole by reflexivity. split; reflexivity.
Qed.

Lemma Delete_validates_role_and_schema_witness :
  let cr := object (Some "r") (Some "o") None (Some "d") (Some ["ALL"]) in
  let out := Delete scenarioClient scenarioCtx (start (IsDefaultPrivilege cr)) in
  fst out = Returns (Some (WithMessage (errors.New errNoSchema) errRevokeDefaultPermsQuery))
  /\ calls (snd out) = ([] ++ [ScanCall OnDb Background (databaseExistsQuery "d")])%list.
Proof.
  apply (Delete_validates_role_and_schema scenarioClient scenarioCtx
           (object (Some "r") (Some "o") None (Some "d") (Some ["ALL"])) [] "d" errNoSchema);
    reflexivity.
Defined.

(** X13: Delete panics in exactly two situations: the object has no
    database (nil is dereferenced for the probe), or the probe finds the
    database and the object has a role and a schema but no owner (nil is
    dereferenced while the revoke sequence is built). *)
Theorem Delete_panics_iff (c : external) (ctx : Context)
    (cr : v1alpha1.DefaultPrivilege) (h : list Call) :
  let gp := v1alpha1.ForProvider (v1alpha1.Spec cr) in
  panics (fst (Delete c ctx (mkStore (IsDefaultPrivilege cr) h))) = true
  <-> v1alpha1.Database gp = None
      \/ (exists database,
            v1alpha1.Database gp = Some database
            /\ ScanBool (db c) h Background (databaseExistsQuery database) = inr true
            /\ v1alpha1.Role gp <> None /\ v1alpha1.Schema gp <> None
            /\ v1alpha1.Owner gp = None).
Proof.
  intros gp. subst gp.
  destruct (v1alpha1.Database (v1alpha1.ForProvider (v1alpha1.Spec cr)))
    as [database|] eqn:Hdb.
  2:{ rewrite (Delete_no_database c ctx cr h Hdb). cbn. split; auto. }
  destruct (ScanBool (db c) h Background (databaseExistsQuery database))
    as [err|[|]] eqn:Hprobe.
  - rewrite (Delete_probe_fails c ctx cr h database err Hdb Hprobe). cbn.
    split; [discriminate | intros [H|(d & [= <-] & H & _)]; congruence].
  - rewrite (Delete_database_exists c ctx cr h database Hdb Hprobe).
    destruct cr as [[[privs role owner schema db0]] status].
    cbn [v1alpha1.ForProvider v1alpha1.Spec v1alpha1.Role v1alpha1.Schema v1alpha1.Owner].
    unfold deleteQuery; cbn [v1alpha1.Role v1alpha1.Schema v1alpha1.Owner].
    destruct role as [role|], schema as [schema|], owner as [owner|];
      cbn [isNil deref bind ret panics fst];
      try (split; [discriminate
                  | intros [H|(d & _ & _ & Hr & Hs & Ho)];
                    [discriminate | congruence]]).
    split; [intros _; right; exists database; repeat split; congruence | reflexivity].
  - assert (Hout : fst (Delete c ctx (mkStore (IsDefaultPrivilege cr) h)) = Returns None).
    { run_verb. rewrite Hdb, Hprobe. reflexivity. }
    rewrite Hout. cbn.
    split; [discriminate | intros [H|(d & [= <-] & H & _)]; congruence].
Qed.

(** The shapes of the store after Delete. *)
Lemma Delete_store (c : external) (ctx : Context) (st : Store) :
  target (snd (Delete c ctx st)) = marked xpv1.Deleting (target st)
  /\ (calls (snd (Delete c ctx st)) = calls st
      \/ exists database,
           let probe := ScanCall OnDb Background (databaseExistsQuery database) in
           calls (snd (Delete c ctx st)) = (calls st ++ [probe])%list
           \/ exists ql, calls (snd (Delete c ctx st))
                         = (calls st ++ [probe; ExecTxCall OnDbDatabase ctx ql])%list).
Proof.
  destruct st as [mg h]. destruct mg as [|cr|kind]; try (cbn; split; [reflexivity | now left]).
  cbn [target calls marked].
  destruct (v1alpha1.Database (v1alpha1.ForProvider (v1alpha1.Spec cr)))
    as [database|] eqn:Hdb.
  2:{ rewrite (Delete_no_database c ctx cr h Hdb). cbn. split; [reflexivity | now left]. }
  destruct (ScanBool (db c) h Background (databaseExistsQuery database))
    as [err|[|]] eqn:Hprobe.
  - rewrite (Delete_probe_fails c ctx cr h database err Hdb Hprobe). cbn.
    split; [reflexivity | right; exists database; now left].
  - rewrite (Delete_database_exists c ctx cr h database Hdb Hprobe).
    destruct (deleteQuery _ _ _) as [[[ql [err|]]|reason] st']; cbn;
      (split; [reflexivity | right; exists database]); try (now left).
    right. exists ql. now rewrite <- app_assoc.
  - assert (Hout : snd (Delete c ctx (mkStore (IsDefaultPrivilege cr) h))
                   = mkStore (IsDefaultPrivilege (v1alpha1.SetConditions cr xpv1.Deleting))
                             (h ++ [ScanCall OnDb Background (databaseExistsQuery database)])).
    { run_verb. rewrite Hdb, Hprobe. reflexivity. }
    rewrite Hout. cbn. split; [reflexivity | right; exists database; now left].
Qed.

(** X14: whatever Delete returns, and also when it panics, an object of the
    right kind is left with the condition Deleting set, its specification
    and its conditions of other types as they were; Delete makes at most
    two calls, first the probe on the identity handle under the background
    context and then [ExecTx] on the target-database handle under the
    context of the verb, and it never makes the second without the
    first. *)
Theorem Delete_marks_and_probes_first (c : external) (ctx : Context) (st : Store) :
  let st' := snd (Delete c ctx st) in
  target st' = marked xpv1.Deleting (target st)
  /\ specOf (target st') = specOf (target st)
  /\ (isDefaultPrivilege (target st) = true ->
      xpv1.GetCondition (conditionsOf (target st')) xpv1.TypeReady = Some xpv1.Deleting)
  /\ (forall ct, ct <> xpv1.TypeReady ->
        xpv1.GetCondition (conditionsOf (target st')) ct
        = xpv1.GetCondition (conditionsOf (target st)) ct)
  /\ (calls st' = calls st
      \/ exists database,
           let probe := ScanCall OnDb Background (databaseExistsQuery database) in
           calls st' = (calls st ++ [probe])%list
           \/ exists ql, calls st' = (calls st ++ [probe; ExecTxCall OnDbDatabase ctx ql])%list).
Proof.
  intros st'. subst st'. destruct (Delete_store c ctx st) as [Ht Hc].
  rewrite Ht. repeat split; auto.
  - now destruct (target st).
  - destruct (target st) as [|cr|kind]; try discriminate. intros _.
    exact (GetCondition_SetConditions _ xpv1.Deleting).
  - intros ct Hct. destruct (target st) as [|cr|kind]; try reflexivity.
    cbn [marked conditionsOf v1alpha1.SetConditions v1alpha1.Status v1alpha1.Conditions].
    now apply GetCondition_SetConditions_other.
Qed.

(* ------------------------------------------------------------------ *)
(** ** Connect                                                          *)
(* ------------------------------------------------------------------ *)

Section ConnectProperties.

Variable GetProviderConfigReference : v1alpha1.DefaultPrivilege -> option Reference.
Variable ToString : option string -> string.
Variable c : connector.
Variable ctx : Context.

(** X15: Connect given anything but a DefaultPrivilege returns no client and
    the wrong-kind error, before tracking usage or reading anything. *)
Theorem Connect_wrong_kind (mg : Managed) :
  isDefaultPrivilege mg = false ->
  Connect GetProviderConfigReference ToString c ctx mg
  = (Returns (None, Some (errors.New errNot)), []).
Proof. destruct mg; [reflexivity | discriminate | reflexivity]. Qed.

(** X16: when usage tracking fails, Connect returns no client and that
    error wrapped as a tracking error; the provider configuration is not
    read, nor is the object's reference to it. *)
Theorem Connect_track_fails (cr : v1alpha1.DefaultPrivilege) (err : error) :
  usage c ctx (IsDefaultPrivilege cr) = Some err ->
  Connect GetProviderConfigReference ToString c ctx (IsDefaultPrivilege cr) =
  (Returns (None, Some (WithMessage err errTrackPCUsage)),
   [TrackCall ctx (IsDefaultPrivilege cr)]).
Proof. intros Ht. unfold Connect. rewrite Ht. reflexivity. Qed.

(** X17: once usage is tracked and the object names a provider
    configuration, the three failures of the credentials path each end
    Connect with no client and a stage-naming error: the configuration
    cannot be read; it names no credentials secret (the secret is then not
    asked for); the secret cannot be read. *)
Theorem Connect_credentials_errors (cr : v1alpha1.DefaultPrivilege) (pcRef : Reference) :
  usage c ctx (IsDefaultPrivilege cr) = None ->
  GetProviderConfigReference cr = Some pcRef ->
  let mg := IsDefaultPrivilege cr in
  let t2 := [TrackCall ctx mg; GetProviderConfigCall ctx (RefName pcRef)] in
  match GetProviderConfig (kube c) ctx (RefName pcRef) with
  | inl err => Connect GetProviderConfigReference ToString c ctx mg = (Returns (None, Some (WithMessage err errGetPC)), t2)
  | inr pc =>
      match ConnectionSecretRef pc with
      | None => Connect GetProviderConfigReference ToString c ctx mg = (Returns (None, Some (errors.New errNoSecretRef)), t2)
      | Some ref =>
          forall err,
            GetSecret (kube c) ctx (SecretNamespace ref) (SecretName ref) = inl err ->
            Connect GetProviderConfigReference ToString c ctx mg =
            (Returns (None, Some (WithMessage err errGetSecret)),
             (t2 ++ [GetSecretCall ctx (SecretNamespace ref) (SecretName ref)])%list)
      end
  end.
Proof.
  intros Ht Href mg t2. subst mg t2. unfold Connect. rewrite Ht, Href.
  destruct (GetProviderConfig (kube c) ctx (RefName pcRef)) as [err|pc]; [reflexivity|].
  destruct (ConnectionSecretRef pc) as [ref|]; [|reflexivity].
  intros err Hs. rewrite Hs. reflexivity.
Qed.

(** X18: when the configuration and the secret are read, Connect returns a
    client and no error.  Both handles are opened with the data of the
    secret and the SSL mode of the configuration; the identity handle on
    the default database of the configuration, the target handle on the
    database the object declares and, when it declares none, on the default
    database too. *)
Theorem Connect_handles (cr : v1alpha1.DefaultPrivilege) (pcRef : Reference)
    (pc : ProviderConfig) (ref : SecretReference) (data : SecretData) :
  usage c ctx (IsDefaultPrivilege cr) = None ->
  GetProviderConfigReference cr = Some pcRef ->
  GetProviderConfig (kube c) ctx (RefName pcRef) = inr pc ->
  ConnectionSecretRef pc = Some ref ->
  GetSecret (kube c) ctx (SecretNamespace ref) (SecretName ref) = inr data ->
  exists e,
    Connect GetProviderConfigReference ToString c ctx (IsDefaultPrivilege cr) =
    (Returns (Some e, None),
     [TrackCall ctx (IsDefaultPrivilege cr); GetProviderConfigCall ctx (RefName pcRef);
      GetSecretCall ctx (SecretNamespace ref) (SecretName ref)])
    /\ db e = newDB c data (DefaultDatabase pc) (ToString (SSLMode pc))
    /\ (forall database,
          v1alpha1.Database (v1alpha1.ForProvider (v1alpha1.Spec cr)) = Some database ->
          dbDatabase e = newDB c data database (ToString (SSLMode pc)))
    /\ (v1alpha1.Database (v1alpha1.ForProvider (v1alpha1.Spec cr)) = None ->
        dbDatabase e = db e).
Proof.
  intros Ht Href Hpc Hsref Hsecret. unfold Connect. rewrite Ht, Href, Hpc, Hsref, Hsecret.
  eexists. split; [reflexivity|]. cbn [db dbDatabase]. unfold crateDb.
  repeat split.
  - intros database ->. reflexivity.
  - intros ->. reflexivity.
Qed.

(** X19: Connect returns a client exactly when it returns no error, and it
    panics exactly when usage is tracked for a DefaultPrivilege that names
    no provider configuration. *)
Theorem Connect_client_or_error (mg : Managed) :
  (forall e err, fst (Connect GetProviderConfigReference ToString c ctx mg) = Returns (e, err) -> (e = None <-> err <> None))
  /\ (panics (fst (Connect GetProviderConfigReference ToString c ctx mg)) = true
      <-> exists cr, mg = IsDefaultPrivilege cr
                     /\ usage c ctx mg = None /\ GetProviderConfigReference cr = None).
Proof.
  destruct mg as [|cr|kind]; unfold Connect.
  1,3: (split; [intros e err [= <- <-]; split; [discriminate | reflexivity]
               | cbn; split; [discriminate | intros (cr & [=] & _)]]).
  destruct (usage c ctx (IsDefaultPrivilege cr)) as [terr|] eqn:Ht.
  { split; [intros e err [= <- <-]; split; [discriminate | reflexivity]|].
    cbn. split; [discriminate | intros (cr' & _ & [=] & _)]. }
  destruct (GetProviderConfigReference cr) as [pcRef|] eqn:Href.
  2:{ split; [intros e err [=]|]. cbn. split; [intros _; now exists cr | reflexivity]. }
  assert (Hnp : forall P : Prop,
            (exists cr', IsDefaultPrivilege cr = IsDefaultPrivilege cr'
                         /\ @None error = None /\ GetProviderConfigReference cr' = None) -> P).
  { intros P (cr' & [= <-] & _ & H). congruence. }
  destruct (GetProviderConfig (kube c) ctx (RefName pcRef)) as [err0|pc].
  { split; [intros e err [= <- <-]; split; [discriminate | reflexivity]|].
    cbn. split; [discriminate | apply Hnp]. }
  destruct (ConnectionSecretRef pc) as [ref|].
  2:{ split; [intros e err [= <- <-]; split; [discriminate | reflexivity]|].
      cbn. split; [discriminate | apply Hnp]. }
  destruct (GetSecret (kube c) ctx (SecretNamespace ref) (SecretName ref)) as [err0|data].
  { split; [intros e err [= <- <-]; split; [discriminate | reflexivity]|].
    cbn. split; [discriminate | apply Hnp]. }
  split; [intros e err [= <- <-]; split; [discriminate | intros H; now elim H]|].
  cbn. split; [discriminate | apply Hnp].
Qed.

End ConnectProperties.

Lemma Connect_wrong_kind_witness :
  Connect exampleReference reference.FromPtrValue
          (exampleConnector None (inr exampleProviderConfig) (inr exampleSecret))
          scenarioCtx NilManaged
  = (Returns (None, Some (errors.New errNot)), []).
Proof.
  apply (Connect_wrong_kind exampleReference reference.FromPtrValue
           (exampleConnector None (inr exampleProviderConfig) (inr exampleSecret))
           scenarioCtx NilManaged).
  reflexivity.
Defined.

Lemma Connect_track_fails_witness :
  Connect exampleReference reference.FromPtrValue
          (exampleConnector (Some boom) (inr exampleProviderConfig) (inr exampleSecret))
          scenarioCtx (IsDefaultPrivilege scenario)
  = (Returns (None, Some (WithMessage boom errTrackPCUsage)),
     [TrackCall scenarioCtx (IsDefaultPrivilege scenario)]).
Proof.
  apply (Connect_track_fails exampleReference reference.FromPtrValue
           (exampleConnector (Some boom) (inr exampleProviderConfig) (inr exampleSecret))
           scenarioCtx scenario boom).
  reflexivity.
Defined.

Lemma Connect_credentials_errors_witness :
  Connect exampleReference reference.FromPtrValue
          (exampleConnector None (inr (mkProviderConfig None "postgres" None))
                            (inr exampleSecret))
          scenarioCtx (IsDefaultPrivilege scenario)
  = (Returns (None, Some (errors.New errNoSecretRef)),
     [TrackCall scenarioCtx (IsDefaultPrivilege scenario);
      GetProviderConfigCall scenarioCtx "default"]).
Proof.
  apply (Connect_credentials_errors exampleReference reference.FromPtrValue
           (exampleConnector None (inr (mkProviderConfig None "postgres" None))
                             (inr exampleSecret))
           scenarioCtx scenario (mkReference "default")); reflexivity.
Defined.

Lemma Connect_handles_witness :
  let c := exampleConnector None (inr exampleProviderConfig) (inr exampleSecret) in
  let cr := object (Some "r") (Some "o") (Some "s") None (Some ["ALL"]) in
  exists e,
    Connect exampleReference reference.FromPtrValue c scenarioCtx (IsDefaultPrivilege cr) =
    (Returns (Some e, None),
     [TrackCall scenarioCtx (IsDefaultPrivilege cr);
      GetProviderConfigCall scenarioCtx "default";
      GetSecretCall scenarioCtx "crossplane-system" "db-conn"])
    /\ db e = newDB c exampleSecret "postgres" ""
    /\ (forall database,
          v1alpha1.Database (v1alpha1.ForProvider (v1alpha1.Spec cr)) = Some database ->
          dbDatabase e = newDB c exampleSecret database "")
    /\ (v1alpha1.Database (v1alpha1.ForProvider (v1alpha1.Spec cr)) = None ->
        dbDatabase e = db e).
Proof.
  apply (Connect_handles exampleReference reference.FromPtrValue
           (exampleConnector None (inr exampleProviderConfig) (inr exampleSecret))
           scenarioCtx (object (Some "r") (Some "o") (Some "s") None (Some ["ALL"]))
           (mkReference "default") exampleProviderConfig
           (mkSecretReference "crossplane-system" "db-conn") exampleSecret); reflexivity.
Defined.

(* ------------------------------------------------------------------ *)
(** ** ResolveReferences                                                *)
(* ------------------------------------------------------------------ *)

Section Resolve.

Variable r : reference.Resolver.
Variable ctx : Context.
Variable gp : v1alpha1.DefaultPrivilegeParameters.
Variable refs : References.

(** X20: when the database cannot be resolved, ResolveReferences returns the
    resolver's error under the path of the database field and leaves the
    object as it was; the role and the owner are not asked for. *)
Theorem ResolveReferences_database_fails (err : error) :
  r [] ctx (databaseRequest gp refs) = inl err ->
  ResolveReferences r ctx gp refs =
  mkResolution gp refs (Some (WithMessage err "spec.forProvider.database"))
               [databaseRequest gp refs].
Proof. intros H. unfold ResolveReferences. rewrite H. reflexivity. Qed.

(** X21: a resolution that fails later keeps what was resolved before.  When
    the database is resolved and the role is not, the error carries the
    path of the role field, the database and its reference are already
    those of the answer, and the role, the owner and their references are
    untouched. *)
Theorem ResolveReferences_role_fails (rsp : reference.ResolutionResponse) (err : error) :
  r [] ctx (databaseRequest gp refs) = inr rsp ->
  r [databaseRequest gp refs] ctx (roleRequest gp refs) = inl err ->
  let out := ResolveReferences r ctx gp refs in
  resolveError out = Some (WithMessage err "spec.forProvider.role")
  /\ requests out = [databaseRequest gp refs; roleRequest gp refs]
  /\ v1alpha1.Database (parameters out) = reference.ToPtrValue (reference.ResolvedValue rsp)
  /\ DatabaseRef (references out) = reference.ResolvedReference rsp
  /\ v1alpha1.Role (parameters out) = v1alpha1.Role gp
  /\ v1alpha1.Owner (parameters out) = v1alpha1.Owner gp
  /\ RoleRef (references out) = RoleRef refs
  /\ OwnerRef (references out) = OwnerRef refs.
Proof.
  intros H1 H2 out. subst out. unfold ResolveReferences. rewrite H1.
  change (roleRequest (setDatabase gp _) (setDatabaseRef refs _)) with (roleRequest gp refs).
  rewrite H2. cbn. repeat split.
Qed.

(** X22: whatever the resolver answers, ResolveReferences asks for the
    database, then the role, then the owner, each request built from the
    value, reference and selector the object had at the start, and stops at
    the first failure; when it returns no error it has made all three; and
    it never changes the privileges, the schema or a selector. *)
Theorem ResolveReferences_frame :
  let out := ResolveReferences r ctx gp refs in
  let all := [databaseRequest gp refs; roleRequest gp refs; ownerRequest gp refs] in
  (exists n, (1 <= n <= 3)%nat /\ requests out = firstn n all
             /\ (resolveError out = None -> n = 3%nat))
  /\ v1alpha1.Privileges (parameters out) = v1alpha1.Privileges gp
  /\ v1alpha1.Schema (parameters out) = v1alpha1.Schema gp
  /\ DatabaseSelector (references out) = DatabaseSelector refs
  /\ RoleSelector (references out) = RoleSelector refs
  /\ OwnerSelector (references out) = OwnerSelector refs.
Proof.
  intros out all. subst out all. unfold ResolveReferences.
  destruct (r [] ctx (databaseRequest gp refs)) as [err|rsp1].
  { cbn. split; [exists 1%nat; repeat split; auto; discriminate | repeat split]. }
  change (roleRequest (setDatabase gp _) (setDatabaseRef refs _)) with (roleRequest gp refs).
  destruct (r [databaseRequest gp refs] ctx (roleRequest gp refs)) as [err|rsp2].
  { cbn. split; [exists 2%nat; repeat split; auto; discriminate | repeat split]. }
  change (ownerRequest (setRole (setDatabase gp _) _) (setRoleRef (setDatabaseRef refs _) _))
    with (ownerRequest gp refs).
  destruct (r [databaseRequest gp refs; roleRequest gp refs] ctx (ownerRequest gp refs))
    as [err|rsp3];
    cbn; (split; [exists 3%nat; repeat split; auto | repeat split]).
Qed.

(** X23: after a resolution without error, none of database, role and
    owner is a pointer to the empty string: a value resolved to nothing is
    stored as nil, which the verbs report as a missing field. *)
Theorem ResolveReferences_no_empty_value :
  resolveError (ResolveReferences r ctx gp refs) = None ->
  let out := parameters (ResolveReferences r ctx gp refs) in
  v1alpha1.Database out <> Some ""
  /\ v1alpha1.Role out <> Some ""
  /\ v1alpha1.Owner out <> Some "".
Proof.
  assert (Hptr : forall v, reference.ToPtrValue v <> Some "").
  { intros v. unfold reference.ToPtrValue. destruct (String.eqb_spec v ""); congruence. }
  unfold ResolveReferences.
  destruct (r [] ctx (databaseRequest gp refs)) as [err|rsp1]; [discriminate|].
  destruct (r [_] ctx _) as [err|rsp2]; [discriminate|].
  destruct (r [_; _] ctx _) as [err|rsp3]; [discriminate|].
  intros _. cbn. repeat split; apply Hptr.
Qed.

End Resolve.

Lemma normalize_idempotent (v : option string) : normalize (normalize v) = normalize v.
Proof.
  unfold normalize, reference.ToPtrValue, reference.FromPtrValue.
  destruct v as [s|]; [|reflexivity].
  destruct (String.eqb_spec s ""); [reflexivity|].
  destruct (String.eqb_spec s ""); [contradiction | reflexivity].
Qed.

Lemma ResolveReferences_echo_result (ctx : Context)
    (gp : v1alpha1.DefaultPrivilegeParameters) (refs : References) :
  ResolveReferences echoResolver ctx gp refs =
  mkResolution
    (v1alpha1.mkParameters (v1alpha1.Privileges gp) (normalize (v1alpha1.Role gp))
       (normalize (v1alpha1.Owner gp)) (v1alpha1.Schema gp) (normalize (v1alpha1.Database gp)))
    refs None [databaseRequest gp refs; roleRequest gp refs; ownerRequest gp refs].
Proof.
  destruct gp as [privs role owner schema database], refs as [o os ro rs d ds]. reflexivity.
Qed.

(** X24: with a resolver that has nothing to look up (it answers each
    request with the request's own value and reference), ResolveReferences
    succeeds, keeps every reference, and keeps database, role and owner
    except that a pointer to the empty string becomes nil; resolving the
    result again changes nothing. *)
Theorem ResolveReferences_echo (ctx : Context) (gp : v1alpha1.DefaultPrivilegeParameters)
    (refs : References) :
  let out := ResolveReferences echoResolver ctx gp refs in
  resolveError out = None
  /\ references out = refs
  /\ parameters out =
     v1alpha1.mkParameters (v1alpha1.Privileges gp) (normalize (v1alpha1.Role gp))
       (normalize (v1alpha1.Owner gp)) (v1alpha1.Schema gp) (normalize (v1alpha1.Database gp))
  /\ parameters (ResolveReferences echoResolver ctx (parameters out) (references out))
     = parameters out.
Proof.
  intros out. subst out. rewrite !ResolveReferences_echo_result.
  cbn [resolveError references parameters v1alpha1.Privileges v1alpha1.Role v1alpha1.Owner
       v1alpha1.Schema v1alpha1.Database].
  repeat split. now rewrite !normalize_idempotent.
Qed.

(** X25: resolution and Observe compose: when the resolver answers the
    database request and answers the role request with the empty value,
    the role of the resolved object is nil, and Observe on it returns the
    role-not-passed error without making a call. *)
Theorem Observe_after_unresolved_role (r : reference.Resolver) (rctx : Context)
    (gp : v1alpha1.DefaultPrivilegeParameters) (refs : References)
    (rsp1 rsp2 : reference.ResolutionResponse)
    (c : external) (ctx : Context) (status : v1alpha1.DefaultPrivilegeStatus)
    (h : list Call) :
  r [] rctx (databaseRequest gp refs) = inr rsp1 ->
  r [databaseRequest gp refs] rctx (roleRequest gp refs) = inr rsp2 ->
  reference.ResolvedValue rsp2 = "" ->
  let cr := v1alpha1.mkDefaultPrivilege
              (v1alpha1.mkSpec (parameters (ResolveReferences r rctx gp refs))) status in
  Observe c ctx (mkStore (IsDefaultPrivilege cr) h) =
  (Returns (managed.noObservation, Some (errors.New errNoRole)),
   mkStore (IsDefaultPrivilege cr) h).
Proof.
  intros H1 H2 Hempty cr. apply Observe_no_role. subst cr.
  cbn [v1alpha1.Spec v1alpha1.ForProvider]. unfold ResolveReferences. rewrite H1.
  change (roleRequest (setDatabase gp _) (setDatabaseRef refs _)) with (roleRequest gp refs).
  rewrite H2, Hempty.
  destruct (r [_; _] rctx _); reflexivity.
Qed.

Lemma ResolveReferences_database_fails_witness :
  let gp := v1alpha1.ForProvider (v1alpha1.Spec scenario) in
  let refs := mkReferences None None None None (Some (mkReference "db1")) None in
  ResolveReferences (tableResolver []) scenarioCtx gp refs =
  mkResolution gp refs
    (Some (WithMessage (Fundamental "referenced object not found") "spec.forProvider.database"))
    [databaseRequest gp refs].
Proof.
  apply (ResolveReferences_database_fails (tableResolver []) scenarioCtx
           (v1alpha1.ForProvider (v1alpha1.Spec scenario))
           (mkReferences None None None None (Some (mkReference "db1")) None)
           (Fundamental "referenced object not found")).
  reflexivity.
Defined.

Lemma ResolveReferences_role_fails_witness :
  let gp := v1alpha1.mkParameters (Some ["ALL"]) None (Some "o") (Some "s") None in
  let refs := mkReferences None None (Some (mkReference "role1")) None
                           (Some (mkReference "db1")) None in
  let out := ResolveReferences (tableResolver [("db1", "shop")]) scenarioCtx gp refs in
  resolveError out
    = Some (WithMessage (Fundamental "referenced object not found") "spec.forProvider.role")
  /\ requests out = [databaseRequest gp refs; roleRequest gp refs]
  /\ v1alpha1.Database (parameters out) = reference.ToPtrValue "shop"
  /\ DatabaseRef (references out) = Some (mkReference "db1")
  /\ v1alpha1.Role (parameters out) = v1alpha1.Role gp
  /\ v1alpha1.Owner (parameters out) = v1alpha1.Owner gp
  /\ RoleRef (references out) = RoleRef refs
  /\ OwnerRef (references out) = OwnerRef refs.
Proof.
  apply (ResolveReferences_role_fails (tableResolver [("db1", "shop")]) scenarioCtx
           (v1alpha1.mkParameters (Some ["ALL"]) None (Some "o") (Some "s") None)
           (mkReferences None None (Some (mkReference "role1")) None
                         (Some (mkReference "db1")) None)
           (reference.mkResponse "shop" (Some (mkReference "db1")))
           (Fundamental "referenced object not found")); reflexivity.
Defined.

Lemma ResolveReferences_no_empty_value_witness :
  let gp := v1alpha1.mkParameters (Some ["ALL"]) (Some "") (Some "o") (Some "s") None in
  let out := parameters (ResolveReferences (tableResolver []) scenarioCtx gp noReferences) in
  v1alpha1.Database out <> Some ""
  /\ v1alpha1.Role out <> Some ""
  /\ v1alpha1.Owner out <> Some "".
Proof.
  apply (ResolveReferences_no_empty_value (tableResolver []) scenarioCtx
           (v1alpha1.mkParameters (Some ["ALL"]) (Some "") (Some "o") (Some "s") None)
           noReferences).
  reflexivity.
Defined.

Lemma Observe_after_unresolved_role_witness :
  let gp := v1alpha1.mkParameters (Some ["ALL"]) None (Some "o") (Some "s") (Some "d") in
  let cr := v1alpha1.mkDefaultPrivilege
              (v1alpha1.mkSpec (parameters (ResolveReferences (tableResolver []) scenarioCtx
                                              gp noReferences)))
              (v1alpha1.mkStatus []) in
  Observe scenarioClient scenarioCtx (mkStore (IsDefaultPrivilege cr) []) =
  (Returns (managed.noObservation, Some (errors.New errNoRole)),
   mkStore (IsDefaultPrivilege cr) []).
Proof.
  apply (Observe_after_unresolved_role (tableResolver []) scenarioCtx
           (v1alpha1.mkParameters (Some ["ALL"]) None (Some "o") (Some "s") (Some "d"))
           noReferences (reference.mkResponse "d" None) (reference.mkResponse "" None)
           scenarioClient scenarioCtx (v1alpha1.mkStatus []) []); reflexivity.
Defined.

(* ------------------------------------------------------------------ *)
(** ** What Create and Delete do not read                              *)
(* ------------------------------------------------------------------ *)

(** X26: Delete does not read the privileges: two objects that agree on
    database, role, owner, schema and conditions get the same outcome from
    Delete (result or panic), make the same calls and end with the same
    conditions. *)
Theorem Delete_independent_of_privileges (c : external) (ctx : Context)
    (cr1 cr2 : v1alpha1.DefaultPrivilege) (h : list Call) :
  let gp1 := v1alpha1.ForProvider (v1alpha1.Spec cr1) in
  let gp2 := v1alpha1.ForProvider (v1alpha1.Spec cr2) in
  v1alpha1.Database gp1 = v1alpha1.Database gp2 ->
  v1alpha1.Role gp1 = v1alpha1.Role gp2 ->
  v1alpha1.Owner gp1 = v1alpha1.Owner gp2 ->
  v1alpha1.Schema gp1 = v1alpha1.Schema gp2 ->
  v1alpha1.Status cr1 = v1alpha1.Status cr2 ->
  let out1 := Delete c ctx (mkStore (IsDefaultPrivilege cr1) h) in
  let out2 := Delete c ctx (mkStore (IsDefaultPrivilege cr2) h) in
  fst out1 = fst out2
  /\ calls (snd out1) = calls (snd out2)
  /\ conditionsOf (target (snd out1)) = conditionsOf (target (snd out2)).
Proof.
  destruct cr1 as [[[privs1 role1 owner1 schema1 database1]] status1].
  destruct cr2 as [[[privs2 role2 owner2 schema2 database2]] status2].
  cbn [v1alpha1.Role v1alpha1.Owner v1alpha1.Schema v1alpha1.Database
       v1alpha1.ForProvider v1alpha1.Spec v1alpha1.Status].
  intros <- <- <- <- <-. run_verb.
  cbn [v1alpha1.Role v1alpha1.Owner v1alpha1.Schema v1alpha1.Database
       v1alpha1.ForProvider v1alpha1.Spec v1alpha1.Status v1alpha1.SetConditions].
  destruct database1 as [database|]; [|now repeat split].
  destruct (ScanBool (db c) h Background (databaseExistsQuery database)) as [err|[|]];
    [now repeat split | | now repeat split].
  unfold deleteQuery; cbn [v1alpha1.Role v1alpha1.Schema v1alpha1.Owner].
  destruct role1, schema1, owner1; cbn [isNil deref bind ret]; try (now repeat split).
  destruct (ExecTx (dbDatabase c) _ ctx _); now repeat split.
Qed.

Lemma Delete_independent_of_privileges_witness :
  let cr2 := object (Some "r") (Some "o") (Some "s") (Some "d") None in
  let out1 := Delete scenarioClient scenarioCtx (mkStore (IsDefaultPrivilege scenario) []) in
  let out2 := Delete scenarioClient scenarioCtx (mkStore (IsDefaultPrivilege cr2) []) in
  fst out1 = fst out2
  /\ calls (snd out1) = calls (snd out2)
  /\ conditionsOf (target (snd out1)) = conditionsOf (target (snd out2)).
Proof.
  apply (Delete_independent_of_privileges scenarioClient scenarioCtx scenario
           (object (Some "r") (Some "o") (Some "s") (Some "d") None) []); reflexivity.
Defined.

(** X27: Create does not read the database field: the statements name no
    database, which is chosen when the handles are opened.  Two objects that
    agree on role, owner, schema, privileges and conditions get the same
    result from Create, make the same calls and end with the same
    conditions. *)
Theorem Create_independent_of_database (c : external) (ctx : Context)
    (cr1 cr2 : v1alpha1.DefaultPrivilege) (h : list Call) :
  let gp1 := v1alpha1.ForProvider (v1alpha1.Spec cr1) in
  let gp2 := v1alpha1.ForProvider (v1alpha1.Spec cr2) in
  v1alpha1.Role gp1 = v1alpha1.Role gp2 ->
  v1alpha1.Owner gp1 = v1alpha1.Owner gp2 ->
  v1alpha1.Schema gp1 = v1alpha1.Schema gp2 ->
  v1alpha1.Privileges gp1 = v1alpha1.Privileges gp2 ->
  v1alpha1.Status cr1 = v1alpha1.Status cr2 ->
  let out1 := Create c ctx (mkStore (IsDefaultPrivilege cr1) h) in
  let out2 := Create c ctx (mkStore (IsDefaultPrivilege cr2) h) in
  fst out1 = fst out2
  /\ calls (snd out1) = calls (snd out2)
  /\ conditionsOf (target (snd out1)) = conditionsOf (target (snd out2)).
Proof.
  destruct cr1 as [[[privs1 role1 owner1 schema1 database1]] status1].
  destruct cr2 as [[[privs2 role2 owner2 schema2 database2]] status2].
  cbn [v1alpha1.Role v1alpha1.Owner v1alpha1.Schema v1alpha1.Privileges
       v1alpha1.ForProvider v1alpha1.Spec v1alpha1.Status].
  intros <- <- <- <- <-.
  set (gp1 := v1alpha1.mkParameters privs1 role1 owner1 schema1 database1).
  set (gp2 := v1alpha1.mkParameters privs1 role1 owner1 schema1 database2).
  destruct (createQueries_pure gp1 []) as [res Hres].
  assert (Hres2 : forall st, createQueries gp2 [] st = (Returns res, st)).
  { intros st. rewrite <- (Hres st). reflexivity. }
  rewrite (Create_outcome c ctx (v1alpha1.mkDefaultPrivilege (v1alpha1.mkSpec gp1) status1)
             h res Hres).
  rewrite (Create_outcome c ctx (v1alpha1.mkDefaultPrivilege (v1alpha1.mkSpec gp2) status1)
             h res Hres2).
  destruct res as [ql [err|]]; repeat split.
Qed.

Lemma Create_independent_of_database_witness :
  let cr2 := object (Some "r") (Some "o") (Some "s") None (Some ["ALL"]) in
  let out1 := Create scenarioClient scenarioCtx (mkStore (IsDefaultPrivilege scenario) []) in
  let out2 := Create scenarioClient scenarioCtx (mkStore (IsDefaultPrivilege cr2) []) in
  fst out1 = fst out2
  /\ calls (snd out1) = calls (snd out2)
  /\ conditionsOf (target (snd out1)) = conditionsOf (target (snd out2)).
Proof.
  apply (Create_independent_of_database scenarioClient scenarioCtx scenario
           (object (Some "r") (Some "o") (Some "s") None (Some ["ALL"])) []); reflexivity.
Defined.

(** X28: when several fields are missing, Create names the first missing
    one in the order role, schema, privileges, owner.  In particular a nil
    privilege list is reported before a missing owner, but a missing owner
    is reported before a privilege list that is present and empty.  The
    error is wrapped as a query-building error and no call is made. *)
Theorem Create_reports_first_missing_field (c : external) (ctx : Context)
    (cr : v1alpha1.DefaultPrivilege) (h : list Call) (msg : string) :
  let gp := v1alpha1.ForProvider (v1alpha1.Spec cr) in
  match v1alpha1.Role gp, v1alpha1.Schema gp, v1alpha1.Privileges gp, v1alpha1.Owner gp with
  | None, _, _, _ => msg = errNoRole
  | Some _, None, _, _ => msg = errNoSchema
  | Some _, Some _, None, _ => msg = errNoPrivileges
  | Some _, Some _, Some _, None => msg = errNoOwner
  | Some _, Some _, Some _, Some _ => False
  end ->
  let out := Create c ctx (mkStore (IsDefaultPrivilege cr) h) in
  fst out = Returns (managed.mkCreation [],
                     Some (WithMessage (errors.New msg) errCreateDefaultPermsQuery))
  /\ calls (snd out) = h.
Proof.
  intros gp Hmsg out. subst out gp.
  assert (Hv : createValidation (v1alpha1.ForProvider (v1alpha1.Spec cr)) = Some msg).
  { destruct cr as [[[privs role owner schema database]] status].
    unfold createValidation.
    cbn [v1alpha1.ForProvider v1alpha1.Spec v1alpha1.Role v1alpha1.Schema
         v1alpha1.Privileges v1alpha1.Owner] in *.
    destruct role, schema, privs, owner; now subst. }
  rewrite (Create_invalid c ctx cr h msg Hv). split; reflexivity.
Qed.

Lemma Create_reports_first_missing_field_witness :
  let cr := object (Some "r") None (Some "s") (Some "d") (Some []) in
  let out := Create scenarioClient scenarioCtx (mkStore (IsDefaultPrivilege cr) []) in
  fst out = Returns (managed.mkCreation [],
                     Some (WithMessage (errors.New errNoOwner) errCreateDefaultPermsQuery))
  /\ calls (snd out) = [].
Proof.
  apply (Create_reports_first_missing_field scenarioClient scenarioCtx
           (object (Some "r") None (Some "s") (Some "d") (Some [])) [] errNoOwner).
  reflexivity.
Defined.
